(** * HikvisionCam: a shallow embedding of [unifi/cams/hikvision.py]

    The adapter object, the ISAPI client it talks to, the asyncio loop that
    owns the motion debouncer and the host callbacks of the base class are
    modelled with explicit state passing.  Python exceptions are a [result]
    value; mutations made before an exception is raised persist, as they do
    in Python. *)

From Stdlib Require Import ZArith String Ascii List Lia Bool.
From Stdlib Require Import Decimal DecimalString DecimalZ DecimalPos.
From stdpp Require Import gmap strings list fin_maps.

Open Scope Z_scope.

(** ** Python values, exceptions and the built-ins the adapter uses *)

Module Py.

(** [Dict[str, Any]] values as they reach the adapter: option dictionaries of
    the host and the XML documents parsed by the client library. *)
#[warnings="-register-all"]
Inductive pyval :=
| PyNone
| PyInt (z : Z)
| PyStr (s : string)
| PyDict (d : gmap string pyval).

(** The exception classes that occur.  [HTTPError] and [ConnectionError] are
    the classes of [requests.exceptions]; [RetryableError] is
    [unifi.core.RetryableError]; [HostError] stands for whatever a host
    callback raises. *)
Inductive exn :=
| HTTPError (status : Z)
| ConnectionError
| ChunkedEncodingError
| RetryableError
| KeyError (key : string)
| ValueError
| TypeError
| HostError (what : string).

Inductive result (A : Type) :=
| Ok (a : A)
| Raise (e : exn).
Arguments Ok {A} a.
Arguments Raise {A} e.

(** [except requests.exceptions.HTTPError] *)
Definition is_HTTPError (e : exn) : bool :=
  match e with HTTPError _ => true | _ => false end.

(** [str(n)] for an [int]: the decimal numeral. *)
Definition str (n : Z) : string := NilZero.string_of_int (Z.to_int n).

(** [int(v)]: the identity on an [int], the decimal reading of a [str]
    (an optional minus sign and digits; the surrounding blanks, the plus sign
    and the underscores that Python also accepts are not modelled),
    [ValueError] on any other text, [TypeError] on [None] and on a
    dictionary. *)
Definition int (v : pyval) : result Z :=
  match v with
  | PyInt z => Ok z
  | PyStr s =>
      match NilZero.int_of_string s with
      | Some d => Ok (Z.of_int d)
      | None => Raise ValueError
      end
  | PyNone | PyDict _ => Raise TypeError
  end.

(** [int(n / d)] for [int]s [n] and [d]: true division followed by
    truncation toward zero.  The quotient is a double in Python; for the
    magnitudes of the data model (|n| <= 360000, d one of 40, 100, 3600) a
    quotient that is not an integer is at least 1/3600 away from the next
    integer, far more than the spacing of doubles there, so the truncation
    of the double is the truncation of the exact quotient. *)
Definition int_truediv (n d : Z) : Z := Z.quot n d.

(** [v[key]] *)
Definition getitem (v : pyval) (key : string) : result pyval :=
  match v with
  | PyDict d =>
      match d !! key with
      | Some x => Ok x
      | None => Raise (KeyError key)
      end
  | _ => Raise TypeError
  end.

(** [Path(dir, name)] rendered as text. *)
Definition Path (dir name : string) : string := dir +:+ "/" +:+ name.

End Py.
Import Py.

(** ** The device, seen through the ISAPI client *)

(** The requests the snapshot and the PTZ methods issue through [self.cam].
    The probe that the client's constructor may send at line 28 and the alert
    stream request of line 125 are not among them: the first is sent by the
    client library, the second is the [alertStream] of a [Worker]. *)
Inductive request :=
| GET_picture (channel : Z)
| GET_capabilities (channel : Z)
| GET_status (channel : Z)
| PUT_absolute (channel : Z) (data : pyval).

(** A response body streamed by [iter_content]: the chunks that arrive and,
    when the connection breaks before the end, the exception raised then. *)
Record stream := { chunks : list (list Byte.byte); broken : option exn }.

(** The base-class coroutines the debouncer awaits. *)
Inductive callback := trigger_motion_start | trigger_motion_stop.

(** ** The adapter object and the world it acts on *)

Record HikvisionCam := mkCam {
  (* attributes set by [__init__] *)
  snapshot_dir : string;
  motion_timeout : Z;
  motion_counter : Z;
  ptz_supported : bool;
  (* the device side: requests issued so far, oldest first *)
  requests : list request;
  (* the file system: contents by path *)
  files : gmap string (list Byte.byte);
  (* the event loop: its clock and the due times of the pending [call_later]
     handles, each of which runs [_trigger_motion_stop], earliest first *)
  clock : Z;
  timers : list Z;
  (* the host: callbacks awaited so far with the time of the call *)
  host_calls : list (Z * callback);
}.

Definition set_motion_counter (c : Z) (s : HikvisionCam) : HikvisionCam :=
  mkCam (snapshot_dir s) (motion_timeout s) c (ptz_supported s)
        (requests s) (files s) (clock s) (timers s) (host_calls s).

Definition set_ptz_supported (b : bool) (s : HikvisionCam) : HikvisionCam :=
  mkCam (snapshot_dir s) (motion_timeout s) (motion_counter s) b
        (requests s) (files s) (clock s) (timers s) (host_calls s).

Definition set_requests (r : list request) (s : HikvisionCam) : HikvisionCam :=
  mkCam (snapshot_dir s) (motion_timeout s) (motion_counter s) (ptz_supported s)
        r (files s) (clock s) (timers s) (host_calls s).

Definition set_files (f : gmap string (list Byte.byte)) (s : HikvisionCam)
  : HikvisionCam :=
  mkCam (snapshot_dir s) (motion_timeout s) (motion_counter s) (ptz_supported s)
        (requests s) f (clock s) (timers s) (host_calls s).

Definition set_clock (t : Z) (s : HikvisionCam) : HikvisionCam :=
  mkCam (snapshot_dir s) (motion_timeout s) (motion_counter s) (ptz_supported s)
        (requests s) (files s) t (timers s) (host_calls s).

Definition set_timers (l : list Z) (s : HikvisionCam) : HikvisionCam :=
  mkCam (snapshot_dir s) (motion_timeout s) (motion_counter s) (ptz_supported s)
        (requests s) (files s) (clock s) l (host_calls s).

Definition set_host_calls (l : list (Z * callback)) (s : HikvisionCam)
  : HikvisionCam :=
  mkCam (snapshot_dir s) (motion_timeout s) (motion_counter s) (ptz_supported s)
        (requests s) (files s) (clock s) (timers s) l.

(** ** Methods run in a state-and-exception monad *)

Definition M (A : Type) : Type := HikvisionCam -> HikvisionCam * result A.

Definition ret {A} (a : A) : M A := fun s => (s, Ok a).

Definition raise {A} (e : exn) : M A := fun s => (s, Raise e).

Definition bind {A B} (m : M A) (k : A -> M B) : M B :=
  fun s =>
    match m s with
    | (s', Ok a) => k a s'
    | (s', Raise e) => (s', Raise e)
    end.

Definition gets {A} (f : HikvisionCam -> A) : M A := fun s => (s, Ok (f s)).

Definition modify (f : HikvisionCam -> HikvisionCam) : M unit :=
  fun s => (f s, Ok tt).

Definition lift {A} (r : result A) : M A := fun s => (s, r).

(** [try: body  except <class>: handler] *)
Definition try_except {A} (body : M A) (caught : exn -> bool)
    (handler : exn -> M A) : M A :=
  fun s =>
    match body s with
    | (s', Ok a) => (s', Ok a)
    | (s', Raise e) => if caught e then handler e s' else (s', Raise e)
    end.

Declare Scope py_scope.
Delimit Scope py_scope with py.
Notation "x <- m ;; k" := (bind m (fun x => k))
  (at level 100, m at next level, k at level 200, right associativity)
  : py_scope.
Notation "m ;; k" := (bind m (fun _ => k))
  (at level 100, k at level 200, right associativity) : py_scope.
Open Scope py_scope.

(** ** The adapter *)

(** The client object [self.cam] (hikvisionapi's [Client]): each endpoint
    answers from the log of the requests issued so far, the current request
    last.  It returns the parsed document, or the open response for the
    picture, or it raises: an [HTTPError] for a client-error or server-error
    status, [ConnectionError] for a host that cannot be reached. *)
Record Client := {
  picture : list request -> result stream;
  capabilities : list request -> result pyval;
  status : list request -> result pyval;
  absolute : list request -> result pyval;
}.

Section Adapter.

(** The device behind [self.cam]. *)
Variable device : Client.

(** The host: whether an awaited callback returns or raises, given the
    callbacks awaited before it.  The callbacks are coroutines of the base
    class; the model runs each of them to completion before the next
    handler of the loop runs. *)
Variable host : list (Z * callback) -> callback -> result unit.

(** Ticks of the loop's clock per second. *)
Variable resolution : Z.

(** A call through [self.cam]: the request is issued and the device
    answers. *)
Definition cam {A} (r : request) (endpoint : list request -> result A)
  : M A :=
  fun s =>
    let log := requests s ++ [r] in
    (set_requests log s, endpoint log).

(** *** get_snapshot (lines 41-51) *)

(** [img_file.open("wb")]: the file is created or truncated. *)
Definition open_wb (path : string) : M unit :=
  modify (fun s => set_files (<[path := []]> (files s)) s).

(** [f.write(chunk)] *)
Definition write (path : string) (chunk : list Byte.byte) : M unit :=
  modify (fun s =>
    set_files (<[path := default [] (files s !! path) ++ chunk]> (files s)) s).

(** [for chunk in resp.iter_content(chunk_size=1024): if chunk: f.write(chunk)] *)
Fixpoint write_chunks (path : string) (cs : list (list Byte.byte)) : M unit :=
  match cs with
  | [] => ret tt
  | chunk :: rest =>
      (match chunk with
       | [] => ret tt
       | _ :: _ => write path chunk
       end) ;;
      write_chunks path rest
  end.

Definition iter_content (path : string) (resp : stream) : M unit :=
  write_chunks path (chunks resp) ;;
  match broken resp with
  | Some e => raise e
  | None => ret tt
  end.

Definition get_snapshot : M string :=
  dir <- gets snapshot_dir ;;
  let img_file := Path dir "screen.jpg" in
  resp <- cam (GET_picture 102) (picture device) ;;
  open_wb img_file ;;
  iter_content img_file resp ;;
  ret img_file.

(** *** check_ptz_support (lines 53-60) *)

Definition check_ptz_support : M bool :=
  try_except
    (cam (GET_capabilities 1) (capabilities device) ;; ret true)
    is_HTTPError
    (fun _ => ret false).

(** *** __init__ (lines 21-31) *)

(** [tmpdir] is the directory [tempfile.mkdtemp()] creates.  The attributes
    are assigned in the order of the source; [ptz_supported] is assigned only
    when the probe returns.  The initializer of the base class and the
    construction of the client (lines 22 and 28-30) belong to code outside
    this file and are taken to return; [streams] and [loop] are not used by
    the properties below. *)
Definition __init__ (tmpdir : string) : M unit :=
  modify (fun s =>
    mkCam tmpdir 5 0 (ptz_supported s)
          (requests s) (files s) (clock s) (timers s) (host_calls s)) ;;
  supported <- check_ptz_support ;;
  modify (set_ptz_supported supported).

(** The world before the adapter exists. *)
Definition nothing : HikvisionCam := mkCam "" 0 0 false [] ∅ 0 [] [].

(** [HikvisionCam(args, logger)]: the object exists only when [__init__]
    returns. *)
Definition construct (tmpdir : string) : result HikvisionCam :=
  match __init__ tmpdir nothing with
  | (s, Ok _) => Ok s
  | (_, Raise e) => Raise e
  end.

(** *** get_video_settings (lines 62-75) *)

(** Lines 67-74: the telemetry dictionary built from the [AbsoluteHigh]
    element [r] of the status document. *)
Definition to_telemetry (r : pyval) : result (gmap string pyval) :=
  match getitem r "azimuth" with
  | Raise e => Raise e
  | Ok a1 =>
  match int a1 with
  | Raise e => Raise e
  | Ok azimuth1 =>
  match getitem r "azimuth" with
  | Raise e => Raise e
  | Ok a2 =>
  match int a2 with
  | Raise e => Raise e
  | Ok azimuth2 =>
  match getitem r "absoluteZoom" with
  | Raise e => Raise e
  | Ok z =>
  match int z with
  | Raise e => Raise e
  | Ok absoluteZoom =>
      Ok {[ "brightness" := PyInt (int_truediv (100 * azimuth1) 3600);
            "contrast" := PyInt (int_truediv (100 * azimuth2) 3600);
            "hue" := PyInt (int_truediv (100 * absoluteZoom) 40) ]}
  end end end end end end.

Definition get_video_settings : M (gmap string pyval) :=
  supported <- gets ptz_supported ;;
  if supported : bool then
    doc <- cam (GET_status 1) (status device) ;;
    p <- lift (getitem doc "PTZStatus") ;;
    r <- lift (getitem p "AbsoluteHigh") ;;
    lift (to_telemetry r)
  else ret ∅.

(** *** change_video_settings (lines 77-97) *)

(** Lines 79-81: tilt, pan and zoom in device units. *)
Definition to_device (options : gmap string pyval) : result (Z * Z * Z) :=
  match getitem (PyDict options) "brightness" with
  | Raise e => Raise e
  | Ok b =>
  match int b with
  | Raise e => Raise e
  | Ok brightness =>
  match getitem (PyDict options) "contrast" with
  | Raise e => Raise e
  | Ok c =>
  match int c with
  | Raise e => Raise e
  | Ok contrast =>
  match getitem (PyDict options) "hue" with
  | Raise e => Raise e
  | Ok h =>
  match int h with
  | Raise e => Raise e
  | Ok hue =>
      Ok (int_truediv (900 * brightness) 100,
          int_truediv (3600 * contrast) 100,
          int_truediv (40 * hue) 100)
  end end end end end end.

(** Lines 84-94: the document sent; [xmltodict.unparse] renders it as XML. *)
Definition PTZData (zoom pan tilt : Z) : pyval :=
  PyDict {[ "PTZData" :=
    PyDict {[ "@version" := PyStr "2.0";
              "@xmlns" := PyStr "http://www.hikvision.com/ver20/XMLSchema";
              "AbsoluteHigh" :=
                PyDict {[ "absoluteZoom" := PyStr (str zoom);
                          "azimuth" := PyStr (str pan);
                          "elevation" := PyStr (str tilt) ]} ]} ]}.

Definition change_video_settings (options : gmap string pyval) : M unit :=
  supported <- gets ptz_supported ;;
  if supported : bool then
    units <- lift (to_device options) ;;
    let '(tilt, pan, zoom) := units in
    cam (PUT_absolute 1 (PTZData zoom pan tilt)) (absolute device) ;;
    ret tt
  else ret tt.

(** *** The motion debouncer (lines 107-119) *)

(** [await self.trigger_motion_start()], [await self.trigger_motion_stop()]:
    the call is recorded with the time of the loop's clock.  The callback is
    taken to complete without giving control back to the loop and without
    touching the adapter; callbacks that suspend or use the adapter are the
    subject of [Base] and [starts] below. *)
Definition await (cb : callback) : M unit :=
  fun s =>
    (set_host_calls (host_calls s ++ [(clock s, cb)]) s,
     host (host_calls s) cb).

(** The loop keeps its handles ordered by due time; a handle goes behind the
    handles that are due at the same time. *)
Fixpoint schedule (due : Z) (queue : list Z) : list Z :=
  match queue with
  | [] => [due]
  | d :: rest => if due <? d then due :: queue else d :: schedule due rest
  end.

(** [self.loop.call_later(delay, asyncio.ensure_future,
    self._trigger_motion_stop())], [delay] in seconds. *)
Definition call_later (delay : Z) : M unit :=
  modify (fun s =>
    set_timers (schedule (clock s + delay * resolution) (timers s)) s).

Definition _trigger_motion_start : M unit :=
  c <- gets motion_counter ;;
  (if c =? 0 then await trigger_motion_start else ret tt) ;;
  modify (fun s => set_motion_counter (motion_counter s + 1) s) ;;
  delay <- gets motion_timeout ;;
  call_later delay.

Definition _trigger_motion_stop : M unit :=
  modify (fun s => set_motion_counter (motion_counter s - 1) s) ;;
  c <- gets motion_counter ;;
  if c <=? 0 then
    modify (set_motion_counter 0) ;;
    await trigger_motion_stop
  else ret tt.

(** *** The event loop *)

(** The loop runs the handle due at [due], [rest] being the handles left in
    the queue.  An exception of the task stays in the task. *)
Definition fire (due : Z) (rest : list Z) (s : HikvisionCam) : HikvisionCam :=
  fst (_trigger_motion_stop (set_clock due (set_timers rest s))).

(** The loop runs the coroutine that [_worker] submitted at time [t] with
    [run_coroutine_threadsafe] (line 130). *)
Definition signal (t : Z) (s : HikvisionCam) : HikvisionCam :=
  fst (_trigger_motion_start (set_clock t s)).

(** A serialized interleaving is a list of events: a signal is processed, or
    the pending handle at some position of the queue fires. *)
Inductive event :=
| Signal (t : Z)
| Timer (i : nat).

Definition step (e : event) (s : HikvisionCam) : option HikvisionCam :=
  match e with
  | Signal t => Some (signal t s)
  | Timer i =>
      match timers s !! i with
      | Some due => Some (fire due (delete i (timers s)) s)
      | None => None
      end
  end.

(** The states observed after each event; [None] when the interleaving asks
    for a handle that was never scheduled. *)
Fixpoint observe (es : list event) (s : HikvisionCam)
  : option (list HikvisionCam) :=
  match es with
  | [] => Some []
  | e :: es' =>
      match step e s with
      | None => None
      | Some s' =>
          match observe es' s' with
          | None => None
          | Some tr => Some (s' :: tr)
          end
      end
  end.

(** Timed runs of a loop that is never late.  Before a signal that arrives
    at [t] the loop has run every handle due before [t]; [timer_first t]
    tells whether a handle due exactly at [t] runs before the signal.  A loop
    that gets to a handle only after a later signal is the subject of
    [Fires] below. *)
Fixpoint run_due (timer_first : Z -> bool) (t : Z) (pending : list Z)
    (s : HikvisionCam) : HikvisionCam :=
  match pending with
  | [] => s
  | due :: rest =>
      if (due <? t) || ((due =? t) && timer_first t)
      then run_due timer_first t rest (fire due rest s)
      else s
  end.

Definition arrive (timer_first : Z -> bool) (t : Z) (s : HikvisionCam)
  : HikvisionCam :=
  signal t (run_due timer_first t (timers s) s).

(** After the last signal the loop runs the handles that are left. *)
Fixpoint run_all (pending : list Z) (s : HikvisionCam) : HikvisionCam :=
  match pending with
  | [] => s
  | due :: rest => run_all rest (fire due rest s)
  end.

(** The signals arrive at the times [arrivals], in this order. *)
Definition run (timer_first : Z -> bool) (arrivals : list Z)
    (s : HikvisionCam) : HikvisionCam :=
  let s' := fold_left (fun s t => arrive timer_first t s) arrivals s in
  run_all (timers s') s'.

(** *** Use of the adapter over time *)

(** What the host and the loop do with a constructed adapter. *)
Inductive call :=
| Snapshot
| GetVideoSettings
| ChangeVideoSettings (options : gmap string pyval)
| Loop (e : event).

(** The state a call leaves, whether it returns or raises; a loop event
    that names no pending handle does not happen. *)
Definition perform (c : call) (s : HikvisionCam) : HikvisionCam :=
  match c with
  | Snapshot => fst (get_snapshot s)
  | GetVideoSettings => fst (get_video_settings s)
  | ChangeVideoSettings options => fst (change_video_settings options s)
  | Loop e =>
      match step e s with
      | Some s' => s'
      | None => s
      end
  end.

Definition after (calls : list call) (s : HikvisionCam) : HikvisionCam :=
  fold_left (fun s c => perform c s) calls s.

End Adapter.

(** ** The spec's rounding *)

(** Round-half-up of [n / d] for [d > 0], as the spec words the write
    direction. *)
Definition spec_round_half_up (n d : Z) : Z := (2 * n + d) / (2 * d).

(** Floor of [n / d], as the spec words the read direction. *)
Definition spec_floor (n d : Z) : Z := n / d.

(** [to_device] as the spec words it: elevation, azimuth and zoom, each
    rounded half up. *)
Definition spec_to_device (brightness contrast hue : Z) : Z * Z * Z :=
  (spec_round_half_up (brightness * 900) 100,
   spec_round_half_up (contrast * 3600) 100,
   spec_round_half_up (hue * 40) 100).

(** ** Inputs *)

(** The option dictionary of the host for an integer telemetry triple. *)
Definition telemetry (brightness contrast hue : Z) : gmap string pyval :=
  {[ "brightness" := PyInt brightness;
     "contrast" := PyInt contrast;
     "hue" := PyInt hue ]}.

(** The [AbsoluteHigh] element of a status document; the parsed XML carries
    the numbers as text. *)
Definition AbsoluteHigh (azimuth elevation absoluteZoom : Z)
  : gmap string pyval :=
  {[ "azimuth" := PyStr (str azimuth);
     "elevation" := PyStr (str elevation);
     "absoluteZoom" := PyStr (str absoluteZoom) ]}.


(** The counter is the number of pending handles. *)
Definition balanced (s : HikvisionCam) : Prop :=
  motion_counter s = Z.of_nat (length (timers s)).

(** The attributes that only [__init__] assigns. *)
Definition attributes (s : HikvisionCam) : string * Z * bool :=
  (snapshot_dir s, motion_timeout s, ptz_supported s).

(** ** Devices and hosts used as examples *)

(** A host that cannot be reached. *)
Definition unreachable : Client :=
  {| picture := fun _ => Raise ConnectionError;
     capabilities := fun _ => Raise ConnectionError;
     status := fun _ => Raise ConnectionError;
     absolute := fun _ => Raise ConnectionError |}.

(** A camera without PTZ: the PTZ endpoints answer 404; a snapshot is two
    chunks. *)
Definition fixed_camera : Client :=
  {| picture := fun _ =>
       Ok {| chunks := [[Byte.xff; Byte.xd8]; []; [Byte.xff; Byte.xd9]];
             broken := None |};
     capabilities := fun _ => Raise (HTTPError 404);
     status := fun _ => Raise (HTTPError 404);
     absolute := fun _ => Raise (HTTPError 404) |}.

(** A PTZ dome: the probe is answered, the status reports azimuth 900,
    elevation 450 and zoom 40. *)
Definition dome_camera : Client :=
  {| picture := fun _ => Ok {| chunks := [[Byte.xff; Byte.xd8]]; broken := None |};
     capabilities := fun _ => Ok (PyDict ∅);
     status := fun _ =>
       Ok (PyDict {[ "PTZStatus" :=
             PyDict {[ "AbsoluteHigh" := PyDict (AbsoluteHigh 900 450 40) ]} ]});
     absolute := fun _ => Ok (PyDict ∅) |}.

(** A host whose callbacks return. *)
Definition calm_host : list (Z * callback) -> callback -> result unit :=
  fun _ _ => Ok tt.

(** A host whose callbacks raise. *)
Definition failing_host : list (Z * callback) -> callback -> result unit :=
  fun _ _ => Raise (HostError "send failed").

(** The adapter [__init__] leaves on a camera without PTZ, and on a dome. *)
Definition idle : HikvisionCam :=
  mkCam "/tmp/tmpq1" 5 0 false [GET_capabilities 1] ∅ 0 [] [].

Definition idle_dome : HikvisionCam :=
  mkCam "/tmp/tmpq1" 5 0 true [GET_capabilities 1] ∅ 0 [] [].

(** An interleaving of three signals with the firing of their handles, the
    second handle first. *)
Definition sample_interleaving : list event :=
  [Signal 0; Signal 1000; Timer 1; Signal 2000; Timer 0; Timer 0].

(** The states observed along it on a clock of 1000 ticks per second. *)
Definition sample_trace : list HikvisionCam :=
  Eval vm_compute in
    match observe calm_host 1000 sample_interleaving idle with
    | Some trace => trace
    | None => []
    end.

(** ** The rest of the adapter *)

(** *** get_stream_source (lines 99-105) *)



(** *** _worker (lines 121-132) *)

(** [v == text] for a [str] literal [text]. *)
Definition eq_str (v : pyval) (text : string) : bool :=
  match v with
  | PyStr s => String.eqb s text
  | _ => false
  end.

(** Lines 128-129: the test made on a notification [r]; [and] does not
    evaluate its right operand when the left one is false. *)
Definition is_motion_alarm (r : pyval) : result bool :=
  match getitem r "EventNotificationAlert" with
  | Raise e => Raise e
  | Ok event =>
      match getitem event "eventType" with
      | Raise e => Raise e
      | Ok eventType =>
          if eq_str eventType "VMD" then
            match getitem event "eventDescription" with
            | Raise e => Raise e
            | Ok eventDescription => Ok (eq_str eventDescription "Motion alarm")
            end
          else Ok false
      end
  end.

(** The worker thread: the times at which it submitted
    [_trigger_motion_start] to the loop (line 130), and the exceptions it
    printed (line 132), both oldest first. *)
Record Worker := {
  submitted : list Z;
  tracebacks : list exn;
}.

(** [asyncio.run_coroutine_threadsafe(self._trigger_motion_start(),
    self.loop)] at time [t]. *)
Definition run_coroutine_threadsafe (t : Z) (w : Worker) : Worker :=
  {| submitted := submitted w ++ [t]; tracebacks := tracebacks w |}.

(** [traceback.print_exc()] *)
Definition print_exc (e : exn) (w : Worker) : Worker :=
  {| submitted := submitted w; tracebacks := tracebacks w ++ [e] |}.

(** What one call of [alertStream(method='get', type='stream')] yields: it
    raises, or returns a falsy value, or returns notifications, each with
    the time at which the worker reads it, after which the iteration may
    raise. *)
Inductive alertStream :=
| Fails (e : exn)
| Falsy
| Events (records : list (Z * pyval)) (interrupted : option exn).

(** Lines 127-130: the [for] loop. *)
Fixpoint for_response (records : list (Z * pyval)) (w : Worker)
  : Worker * result unit :=
  match records with
  | [] => (w, Ok tt)
  | (t, r) :: rest =>
      match is_motion_alarm r with
      | Raise e => (w, Raise e)
      | Ok true => for_response rest (run_coroutine_threadsafe t w)
      | Ok false => for_response rest w
      end
  end.

(** Lines 124-130: the body of [try]. *)
Definition poll (response : alertStream) (w : Worker) : Worker * result unit :=
  match response with
  | Fails e => (w, Raise e)
  | Falsy => (w, Ok tt)
  | Events records interrupted =>
      match for_response records w with
      | (w', Raise e) => (w', Raise e)
      | (w', Ok _) =>
          match interrupted with
          | Some e => (w', Raise e)
          | None => (w', Ok tt)
          end
      end
  end.

(** One turn of [while True]: the bare [except] catches everything. *)
Definition turn (response : alertStream) (w : Worker) : Worker :=
  match poll response w with
  | (w', Ok _) => w'
  | (w', Raise e) => print_exc e w'
  end.

(** [_worker] over the turns in which [alertStream] yields [feed]; the
    loop itself never ends. *)
Definition _worker (feed : list alertStream) (w : Worker) : Worker :=
  fold_left (fun w response => turn response w) feed w.

(** The worker [run] starts (line 136). *)
Definition started : Worker := {| submitted := []; tracebacks := [] |}.

(** The times of the motion alarms among [records]. *)
Definition motion_times (records : list (Z * pyval)) : list Z :=
  map fst
    (List.filter (fun tr => match is_motion_alarm (snd tr) with
                            | Ok true => true
                            | _ => false
                            end) records).

(** A notification the test of lines 128-129 can be made on. *)
Definition readable (tr : Z * pyval) : Prop :=
  exists b, is_motion_alarm (snd tr) = Ok b.

(** The notifications of a response. *)
Definition notifications (response : alertStream) : list (Z * pyval) :=
  match response with
  | Events records _ => records
  | _ => []
  end.

(** The exception that ends a turn whose notifications are all readable. *)
Definition failure (response : alertStream) : list exn :=
  match response with
  | Fails e => [e]
  | Falsy => []
  | Events _ (Some e) => [e]
  | Events _ None => []
  end.

(** A notification of the given type and description. *)
Definition alert (eventType eventDescription : string) : pyval :=
  PyDict {[ "EventNotificationAlert" :=
    PyDict {[ "eventType" := PyStr eventType;
              "eventDescription" := PyStr eventDescription ]} ]}.

(** *** Bursts after bursts *)




(** No motion: nothing counted, nothing pending. *)
Definition quiet (log : list (Z * callback)) (s : HikvisionCam) : Prop :=
  motion_timeout s = 5 /\ motion_counter s = 0
  /\ timers s = [] /\ host_calls s = log.

(** *** The device as the PTZ methods see it *)

(** The [AbsoluteHigh] element of the document a PUT carries. *)
Definition sent_position (r : request) : option pyval :=
  match r with
  | PUT_absolute _ data =>
      match getitem data "PTZData" with
      | Ok d =>
          match getitem d "AbsoluteHigh" with
          | Ok position => Some position
          | Raise _ => None
          end
      | Raise _ => None
      end
  | _ => None
  end.

(** The status document around an [AbsoluteHigh] element. *)
Definition PTZStatus (position : pyval) : pyval :=
  PyDict {[ "PTZStatus" := PyDict {[ "AbsoluteHigh" := position ]} ]}.

(** A device whose status, asked right after a PUT, reports the position
    that PUT carried. *)
Definition reports_position_sent (device : Client) : Prop :=
  forall log r position,
    sent_position r = Some position ->
    status device (log ++ [r; GET_status 1]) = Ok (PTZStatus position).

(** Such a device: it answers every PUT and reports the position of the
    request before the status request. *)
Definition echo_dome : Client :=
  {| picture := fun _ => Raise (HTTPError 503);
     capabilities := fun _ => Ok (PyDict ∅);
     status := fun log =>
       match rev log with
       | _ :: r :: _ =>
           match sent_position r with
           | Some position => Ok (PTZStatus position)
           | None => Raise (HTTPError 503)
           end
       | _ => Raise (HTTPError 503)
       end;
     absolute := fun _ => Ok (PyDict ∅) |}.

(** The motion state, which the device-facing methods leave alone. *)
Definition motion_state (s : HikvisionCam)
  : Z * Z * list Z * list (Z * callback) :=
  (motion_counter s, clock s, timers s, host_calls s).

(** ** The debouncer on the loop, coroutine by coroutine *)

(** The base class behind the callbacks that lines 109 and 119 await.  They
    are coroutine methods of [self]: awaited after the callbacks [h],
    [trigger_motion_start] either gives control back to the loop before it
    completes ([suspends h]) or completes at once, returning or raising
    ([returns h]); and being methods of the adapter they may use it, take a
    snapshot for instance ([uses]). *)
Record Base := {
  suspends : list (Z * callback) -> bool;
  returns : list (Z * callback) -> callback -> result unit;
  uses : callback -> HikvisionCam -> HikvisionCam;
}.

(** The loop around the adapter: with the adapter, the number of
    [_trigger_motion_start] coroutines that are suspended at line 109. *)
Record EventLoop := {
  adapter : HikvisionCam;
  suspended : nat;
}.

(** What the loop runs, one after the other: a submitted
    [_trigger_motion_start] from line 108, at time [t]; the rest of a
    suspended one from line 110, when the callback it awaits completes with
    [r] at time [t]; the coroutine of the handle at position [i] of the
    queue, [late] ticks after the handle came due.  Each is one
    uninterrupted step of the loop, taken at one reading of its clock. *)
Inductive occurrence :=
| Starts (t : Z)
| Resumes (t : Z) (r : result unit)
| Fires (i : nat) (late : Z).

Section Coroutines.

Variable base : Base.
Variable resolution : Z.

(** The callback [cb] is awaited: the call is recorded with the time of the
    loop's clock. *)
Definition awaited (cb : callback) (s : HikvisionCam) : HikvisionCam :=
  set_host_calls (host_calls s ++ [(clock s, cb)]) s.

(** Lines 111-112. *)
Definition count_and_schedule (s : HikvisionCam) : HikvisionCam :=
  set_timers (schedule (clock s + motion_timeout s * resolution) (timers s))
    (set_motion_counter (motion_counter s + 1) s).

(** Lines 108-112, up to the end or up to the suspension at line 109.  The
    clock of the loop does not go back. *)
Definition starts (t : Z) (l : EventLoop) : option EventLoop :=
  if clock (adapter l) <=? t then
    let s := set_clock t (adapter l) in
    if motion_counter s =? 0 then
      if suspends base (host_calls s) then
        Some {| adapter := awaited trigger_motion_start s;
                suspended := S (suspended l) |}
      else
        let s1 := uses base trigger_motion_start
                    (awaited trigger_motion_start s) in
        match returns base (host_calls s) trigger_motion_start with
        | Ok _ => Some {| adapter := count_and_schedule s1;
                          suspended := suspended l |}
        | Raise _ => Some {| adapter := s1; suspended := suspended l |}
        end
    else Some {| adapter := count_and_schedule s; suspended := suspended l |}
  else None.

(** Lines 110-112 of a coroutine suspended at line 109, or its end when the
    callback raises. *)
Definition resumes (t : Z) (r : result unit) (l : EventLoop)
  : option EventLoop :=
  match suspended l with
  | O => None
  | S n =>
      if clock (adapter l) <=? t then
        let s := uses base trigger_motion_start (set_clock t (adapter l)) in
        Some {| adapter := match r with
                           | Ok _ => count_and_schedule s
                           | Raise _ => s
                           end;
                suspended := n |}
      else None
  end.

(** Lines 115-119, run by the handle at position [i], not before it is
    due.  Nothing follows the await of line 119, so that a suspension there
    changes nothing. *)
Definition fires (i : nat) (late : Z) (l : EventLoop) : option EventLoop :=
  match timers (adapter l) !! i with
  | None => None
  | Some due =>
      let t := due + late in
      if (0 <=? late) && (clock (adapter l) <=? t) then
        let s := set_motion_counter (motion_counter (adapter l) - 1)
                   (set_clock t
                      (set_timers (delete i (timers (adapter l)))
                         (adapter l))) in
        Some {| adapter :=
                  if motion_counter s <=? 0
                  then uses base trigger_motion_stop
                         (awaited trigger_motion_stop
                            (set_motion_counter 0 s))
                  else s;
                suspended := suspended l |}
      else None
  end.

Definition occur (o : occurrence) (l : EventLoop) : option EventLoop :=
  match o with
  | Starts t => starts t l
  | Resumes t r => resumes t r l
  | Fires i late => fires i late l
  end.

(** The loop after the occurrences [os]; [None] when they cannot occur in
    this order. *)
Fixpoint play (os : list occurrence) (l : EventLoop) : option EventLoop :=
  match os with
  | [] => Some l
  | o :: rest =>
      match occur o l with
      | Some l' => play rest l'
      | None => None
      end
  end.

End Coroutines.



(** What the motion state consists of, with the timeout. *)
Definition view (s : HikvisionCam)
  : Z * Z * Z * list Z * list (Z * callback) :=
  (motion_timeout s, motion_counter s, clock s, timers s, host_calls s).

(** The callbacks do not reach into the debouncer. *)
Definition keeps_motion_state (f : callback -> HikvisionCam -> HikvisionCam)
  : Prop :=
  forall cb s, view (f cb s) = view s.



(** *** A loop that is never late *)





(** *** Base classes used as examples *)



(** A start callback that waits, for the web socket for instance. *)
Definition slow_base : Base :=
  {| suspends := fun _ => true;
     returns := fun _ _ => Ok tt;
     uses := fun _ s => s |}.


(** *** More devices and inputs used as examples *)

(** A camera whose snapshot breaks off after the first chunk. *)
Definition flaky_camera : Client :=
  {| picture := fun _ =>
       Ok {| chunks := [[Byte.xff; Byte.xd8]];
             broken := Some ChunkedEncodingError |};
     capabilities := fun _ => Raise (HTTPError 404);
     status := fun _ => Raise (HTTPError 404);
     absolute := fun _ => Raise (HTTPError 404) |}.

(** What the alert stream yields over four turns: a motion alarm, a refused
    connection, a video-loss notification and a second motion alarm, and a
    connection that breaks off after a third one. *)
Definition sample_feed : list alertStream :=
  [Events [(0, alert "VMD" "Motion alarm")] None;
   Fails ConnectionError;
   Events [(2500, alert "videoloss" "videoloss alarm");
           (3000, alert "VMD" "Motion alarm")] None;
   Events [(7999, alert "VMD" "Motion alarm")] (Some ChunkedEncodingError)].

(** * Properties *)

(** ** Built-ins *)

Lemma int_str (n : Z) : int (PyStr (str n)) = Ok n.
Proof.
  unfold int, str.
  rewrite NilZero.isi.
  - now rewrite DecimalZ.of_to.
  - destruct n; simpl; try discriminate.
    intros H; injection H as H. now apply Unsigned.to_uint_nonnil in H.
  - destruct n; simpl; try discriminate.
    intros H; injection H as H. now apply Unsigned.to_uint_nonnil in H.
Qed.

Lemma int_truediv_floor (n d : Z) :
  0 <= n -> 0 < d -> int_truediv n d = spec_floor n d.
Proof. intros. now apply Z.quot_div_nonneg. Qed.

Lemma telemetry_brightness b c h : telemetry b c h !! "brightness" = Some (PyInt b).
Proof. reflexivity. Qed.

Lemma telemetry_contrast b c h : telemetry b c h !! "contrast" = Some (PyInt c).
Proof. reflexivity. Qed.

Lemma telemetry_hue b c h : telemetry b c h !! "hue" = Some (PyInt h).
Proof. reflexivity. Qed.

Lemma to_device_telemetry b c h :
  to_device (telemetry b c h) =
  Ok (int_truediv (900 * b) 100, int_truediv (3600 * c) 100,
      int_truediv (40 * h) 100).
Proof.
  unfold to_device, getitem.
  now rewrite telemetry_brightness, telemetry_contrast, telemetry_hue.
Qed.

Lemma to_telemetry_AbsoluteHigh az el zm :
  to_telemetry (PyDict (AbsoluteHigh az el zm)) =
  Ok {[ "brightness" := PyInt (int_truediv (100 * az) 3600);
        "contrast" := PyInt (int_truediv (100 * az) 3600);
        "hue" := PyInt (int_truediv (100 * zm) 40) ]}.
Proof.
  unfold to_telemetry, getitem.
  replace (AbsoluteHigh az el zm !! "azimuth") with (Some (PyStr (str az)))
    by reflexivity.
  replace (AbsoluteHigh az el zm !! "absoluteZoom") with (Some (PyStr (str zm)))
    by reflexivity.
  now rewrite !int_str.
Qed.

(** ** The unit mapping *)

(** With PTZ support, [change_video_settings] sends the triple computed by
    lines 79-81 in one PUT request. *)
Lemma change_video_settings_supported device options s tilt pan zoom :
  ptz_supported s = true ->
  to_device options = Ok (tilt, pan, zoom) ->
  requests (fst (change_video_settings device options s)) =
  requests s ++ [PUT_absolute 1 (PTZData zoom pan tilt)].
Proof.
  intros Hs Hd. unfold change_video_settings, bind, gets, lift, cam, ret.
  rewrite Hs, Hd. simpl.
  now destruct (absolute device _).
Qed.

(** With PTZ support, [get_video_settings] returns what lines 67-74 build from
    the [AbsoluteHigh] element of the status document. *)
Lemma get_video_settings_supported device s r :
  ptz_supported s = true ->
  status device (requests s ++ [GET_status 1]) =
    Ok (PyDict {[ "PTZStatus" := PyDict {[ "AbsoluteHigh" := r ]} ]}) ->
  snd (get_video_settings device s) = to_telemetry r.
Proof.
  intros Hs Hd. unfold get_video_settings, bind, gets, lift, cam.
  rewrite Hs, Hd. unfold getitem.
  rewrite lookup_singleton_eq. cbn iota. rewrite lookup_singleton_eq.
  now destruct (to_telemetry r).
Qed.

(** C4, as stated, fails: for hue 4 the code sends zoom 1 (40 * 4 / 100 = 1.6
    truncated), where rounding half up gives 2. *)
Lemma to_device_not_round_half_up :
  to_device (telemetry 0 0 4) <> Ok (spec_to_device 0 0 4).
Proof. rewrite to_device_telemetry. vm_compute. discriminate. Qed.

(** C4 (amended): for integer brightness, contrast and hue in [0,100] the
    write direction computes elevation = brightness * 900 / 100 and
    azimuth = contrast * 3600 / 100, which are exact and so equal to their
    rounding half up, and zoom = floor(hue * 40 / 100), a truncation;
    this triple is what [change_video_settings] sends; the triple
    (50, 25, 100) yields elevation 450, azimuth 900, zoom 40. *)
Theorem to_device_scaling (device : Client) (s : HikvisionCam) (b c h : Z) :
  0 <= b <= 100 -> 0 <= c <= 100 -> 0 <= h <= 100 ->
  ptz_supported s = true ->
  to_device (telemetry b c h) = Ok (9 * b, 36 * c, spec_floor (h * 40) 100)
  /\ 9 * b = spec_round_half_up (b * 900) 100
  /\ 36 * c = spec_round_half_up (c * 3600) 100
  /\ requests (fst (change_video_settings device (telemetry b c h) s)) =
     requests s ++
       [PUT_absolute 1 (PTZData (spec_floor (h * 40) 100) (36 * c) (9 * b))]
  /\ to_device (telemetry 50 25 100) = Ok (450, 900, 40).
Proof.
  intros Hb Hc Hh Hs.
  assert (Hd : to_device (telemetry b c h) =
               Ok (9 * b, 36 * c, spec_floor (h * 40) 100)).
  { rewrite to_device_telemetry.
    rewrite !int_truediv_floor by lia.
    unfold spec_floor.
    replace (900 * b) with (9 * b * 100) by lia.
    replace (3600 * c) with (36 * c * 100) by lia.
    replace (40 * h) with (h * 40) by lia.
    now rewrite !Z.div_mul. }
  split; [exact Hd|].
  split; [unfold spec_round_half_up; Z.div_mod_to_equations; lia|].
  split; [unfold spec_round_half_up; Z.div_mod_to_equations; lia|].
  split; [now apply change_video_settings_supported|].
  rewrite to_device_telemetry. reflexivity.
Qed.

(** C7: for a status record of the data model the read direction takes
    both brightness and contrast from azimuth, each equal to
    floor(azimuth * 100 / 3600); the [elevation] entry is never read, so
    replacing or removing it in any record changes nothing; and whatever
    the record, the brightness and the contrast returned are equal. *)
Theorem to_telemetry_reads_azimuth
    (r : gmap string pyval) (az el zm : Z) :
  0 <= az <= 3600 ->
  to_telemetry (PyDict (AbsoluteHigh az el zm)) =
    Ok {[ "brightness" := PyInt (spec_floor (az * 100) 3600);
          "contrast" := PyInt (spec_floor (az * 100) 3600);
          "hue" := PyInt (int_truediv (100 * zm) 40) ]}
  /\ (forall x, to_telemetry (PyDict (<["elevation" := x]> r)) =
                to_telemetry (PyDict r))
  /\ to_telemetry (PyDict (delete "elevation" r)) = to_telemetry (PyDict r)
  /\ (forall t, to_telemetry (PyDict r) = Ok t ->
        is_Some (t !! "brightness") /\ t !! "brightness" = t !! "contrast").
Proof.
  intros Haz. repeat split.
  - rewrite to_telemetry_AbsoluteHigh.
    rewrite (int_truediv_floor (100 * az)) by lia.
    now replace (100 * az) with (az * 100) by lia.
  - intros x. unfold to_telemetry, getitem.
    now rewrite !lookup_insert_ne by discriminate.
  - unfold to_telemetry, getitem.
    now rewrite !lookup_delete_ne by discriminate.
  - unfold to_telemetry in H.
    destruct (getitem (PyDict r) "azimuth") as [a|]; [|discriminate].
    destruct (int a); [|discriminate].
    destruct (getitem (PyDict r) "absoluteZoom") as [z|]; [|discriminate].
    destruct (int z); [|discriminate].
    injection H as <-. now eexists.
  - unfold to_telemetry in H.
    destruct (getitem (PyDict r) "azimuth") as [a|]; [|discriminate].
    destruct (int a); [|discriminate].
    destruct (getitem (PyDict r) "absoluteZoom") as [z|]; [|discriminate].
    destruct (int z); [|discriminate].
    injection H as <-. reflexivity.
Qed.

(** C8: for an integer hue in [0,100] with hue * 40 / 100 an exact integer,
    the zoom that the write direction sends is round(hue * 40 / 100) and the
    read direction maps a status reporting that zoom back to the same hue:
    floor(round(hue * 40 / 100) * 100 / 40) = hue. *)
Theorem hue_round_trip (b c h az el : Z) :
  0 <= h <= 100 ->
  (h * 40) mod 100 = 0 ->
  exists tilt pan zoom t,
    to_device (telemetry b c h) = Ok (tilt, pan, zoom)
    /\ zoom = spec_round_half_up (h * 40) 100
    /\ to_telemetry (PyDict (AbsoluteHigh az el zoom)) = Ok t
    /\ t !! "hue" = Some (PyInt h)
    /\ spec_floor (spec_round_half_up (h * 40) 100 * 100) 40 = h.
Proof.
  intros Hh Hex.
  assert (Hz : int_truediv (40 * h) 100 = spec_round_half_up (h * 40) 100).
  { rewrite int_truediv_floor by lia.
    unfold spec_floor, spec_round_half_up. Z.div_mod_to_equations. lia. }
  assert (Hback : spec_floor (spec_round_half_up (h * 40) 100 * 100) 40 = h).
  { unfold spec_floor, spec_round_half_up. Z.div_mod_to_equations. lia. }
  eexists _, _, _, _.
  split; [apply to_device_telemetry|].
  split; [exact Hz|].
  split; [apply to_telemetry_AbsoluteHigh|].
  split; [|exact Hback].
  replace (({[ "brightness" := PyInt (int_truediv (100 * az) 3600);
               "contrast" := PyInt (int_truediv (100 * az) 3600);
               "hue" := PyInt (int_truediv (100 * int_truediv (40 * h) 100) 40) ]}
            : gmap string pyval) !! "hue")
    with (Some (PyInt (int_truediv (100 * int_truediv (40 * h) 100) 40)))
    by reflexivity.
  do 2 f_equal. rewrite Hz.
  rewrite int_truediv_floor.
  - rewrite <- Hback at 2. unfold spec_floor. f_equal. lia.
  - unfold spec_round_half_up. Z.div_mod_to_equations. lia.
  - lia.
Qed.

(** The round trip of brightness is lossy: brightness 50 and contrast 25 are
    sent as elevation 450 and azimuth 900, and a status reporting these
    reads back as brightness 25. *)
Example brightness_round_trip_lossy :
  to_device (telemetry 50 25 100) = Ok (450, 900, 40)
  /\ to_telemetry (PyDict (AbsoluteHigh 900 450 40)) =
     Ok {[ "brightness" := PyInt 25; "contrast" := PyInt 25;
           "hue" := PyInt 100 ]}.
Proof.
  split.
  - now rewrite to_device_telemetry.
  - now rewrite to_telemetry_AbsoluteHigh.
Qed.

(** ** Attributes assigned once *)

Section Frame.

Variable device : Client.
Variable host : list (Z * callback) -> callback -> result unit.
Variable resolution : Z.

Lemma write_chunks_spec path cs : forall s acc,
  files s !! path = Some acc ->
  exists s',
    write_chunks path cs s = (s', Ok tt)
    /\ files s' !! path = Some (acc ++ concat cs)
    /\ attributes s' = attributes s
    /\ requests s' = requests s.
Proof.
  induction cs as [|chunk rest IH]; intros s acc Hacc.
  - exists s. simpl. now rewrite app_nil_r.
  - destruct chunk as [|b chunk].
    + simpl. unfold bind at 1. unfold ret at 1.
      apply (IH s acc Hacc).
    + cbn [write_chunks]. unfold bind at 1. unfold write, modify.
      set (s1 := set_files _ s).
      destruct (IH s1 (acc ++ b :: chunk)) as (s' & Hrun & Hfile & Hattr & Hreq).
      { subst s1. cbn. rewrite Hacc. cbn. apply lookup_insert_eq. }
      exists s'. rewrite Hrun. repeat split; try assumption.
      cbn [concat]. now rewrite app_assoc.
Qed.

Lemma get_snapshot_attributes s :
  attributes (fst (get_snapshot device s)) = attributes s.
Proof.
  unfold get_snapshot, bind, gets, cam, open_wb, modify, iter_content, bind.
  destruct (picture device _) as [body|e]; [|reflexivity].
  set (s1 := set_files _ _).
  destruct (write_chunks_spec (Path (snapshot_dir s) "screen.jpg")
              (chunks body) s1 []) as (s' & Hrun & _ & Hattr & _).
  { subst s1. cbn. apply lookup_insert_eq. }
  rewrite Hrun. destruct (broken body); exact Hattr.
Qed.

Lemma get_video_settings_attributes s :
  attributes (fst (get_video_settings device s)) = attributes s.
Proof.
  unfold get_video_settings, bind, gets, cam, lift, ret.
  destruct (ptz_supported s); [|reflexivity].
  destruct (status device _) as [doc|]; [|reflexivity].
  destruct (getitem doc _) as [q|]; [|reflexivity].
  destruct (getitem q _) as [r|]; [|reflexivity].
  now destruct (to_telemetry r).
Qed.

Lemma change_video_settings_attributes options s :
  attributes (fst (change_video_settings device options s)) = attributes s.
Proof.
  unfold change_video_settings, bind, gets, cam, lift, ret.
  destruct (ptz_supported s); [|reflexivity].
  destruct (to_device options) as [[[tilt pan] zoom]|]; [|reflexivity].
  now destruct (absolute device _).
Qed.

Lemma signal_attributes t s :
  attributes (signal host resolution t s) = attributes s.
Proof.
  unfold signal, _trigger_motion_start, call_later, await, bind, gets, modify, ret.
  cbn. destruct (motion_counter s =? 0); [|reflexivity].
  now destruct (host _ _).
Qed.

Lemma fire_attributes due rest s :
  attributes (fire host due rest s) = attributes s.
Proof.
  unfold fire, _trigger_motion_stop, await, bind, gets, modify, ret.
  cbn. destruct (motion_counter s - 1 <=? 0); [|reflexivity].
  now destruct (host _ _).
Qed.

Lemma perform_attributes c s :
  attributes (perform device host resolution c s) = attributes s.
Proof.
  destruct c as [| |options|[t|i]]; cbn [perform step].
  - apply get_snapshot_attributes.
  - apply get_video_settings_attributes.
  - apply change_video_settings_attributes.
  - apply signal_attributes.
  - destruct (timers s !! i); [apply fire_attributes|reflexivity].
Qed.

Lemma after_attributes calls : forall s,
  attributes (after device host resolution calls s) = attributes s.
Proof.
  unfold after.
  induction calls as [|c calls IH]; intros s; [reflexivity|].
  cbn [fold_left]. rewrite IH. apply perform_attributes.
Qed.

(** What [__init__] leaves when it returns. *)
Lemma construct_Ok tmpdir s :
  construct device tmpdir = Ok s ->
  snapshot_dir s = tmpdir /\ motion_timeout s = 5 /\ motion_counter s = 0
  /\ timers s = [] /\ host_calls s = []
  /\ requests s = [GET_capabilities 1].
Proof.
  unfold construct, __init__, check_ptz_support, try_except, bind, modify,
    cam, ret. cbn.
  destruct (capabilities device _) as [doc|e]; cbn.
  - intros [= <-]. now repeat split.
  - destruct (is_HTTPError e); cbn; [|discriminate].
    intros [= <-]. now repeat split.
Qed.

End Frame.

(** ** The snapshot *)

(** What [get_snapshot] does, case by case on the device's answer. *)
Lemma get_snapshot_cases device s :
  let log := requests s ++ [GET_picture 102] in
  let img_file := Path (snapshot_dir s) "screen.jpg" in
  match picture device log with
  | Raise e => get_snapshot device s = (set_requests log s, Raise e)
  | Ok body =>
      exists s',
        get_snapshot device s =
          (s', match broken body with
               | Some e => Raise e
               | None => Ok img_file
               end)
        /\ files s' !! img_file = Some (concat (chunks body))
        /\ requests s' = log
  end.
Proof.
  intros log img_file.
  unfold get_snapshot, bind, gets, cam, open_wb, modify, iter_content, bind.
  fold log. destruct (picture device log) as [body|e]; [|reflexivity].
  fold img_file. set (s1 := set_files _ _).
  destruct (write_chunks_spec img_file (chunks body) s1 [])
    as (s' & Hrun & Hfile & _ & Hreq).
  { subst s1. cbn. apply lookup_insert_eq. }
  exists s'. rewrite Hrun.
  split; [now destruct (broken body)|]. now split.
Qed.

(** C5, as stated, fails: when the host cannot be reached the caller sees the
    client's [ConnectionError], not [RetryableError]. *)
Lemma get_snapshot_not_retryable :
  snd (get_snapshot unreachable idle) = Raise ConnectionError
  /\ snd (get_snapshot unreachable idle) <> Raise RetryableError.
Proof. split; [reflexivity|discriminate]. Qed.

(** C5 (amended): a failure of the snapshot fetch reaches the caller as the
    exception the client raised, unchanged, be it raised by the GET or while
    the body is streamed; [get_snapshot] does not retry: a call issues exactly
    one request, whatever the outcome. *)
Theorem get_snapshot_propagates (device : Client) (s : HikvisionCam) :
  let log := requests s ++ [GET_picture 102] in
  requests (fst (get_snapshot device s)) = log
  /\ match picture device log with
     | Raise e => snd (get_snapshot device s) = Raise e
     | Ok body =>
         snd (get_snapshot device s) =
         match broken body with
         | Some e => Raise e
         | None => Ok (Path (snapshot_dir s) "screen.jpg")
         end
     end.
Proof.
  intros log. pose proof (get_snapshot_cases device s) as H.
  cbv zeta in H. fold log in H.
  destruct (picture device log) as [body|e].
  - destruct H as (s' & -> & _ & Hreq). now split.
  - rewrite H. now split.
Qed.

(** C10: after construction and any use of the adapter, a call of
    [get_snapshot] that returns, returns the path of [screen.jpg] in the
    directory created by [__init__], and that file then holds exactly the
    body of this call's response, whatever it held before. *)
Theorem get_snapshot_fixed_path
    (device : Client) (host : list (Z * callback) -> callback -> result unit)
    (resolution : Z) (tmpdir : string) (calls : list call)
    (s0 s' : HikvisionCam) (p : string) :
  construct device tmpdir = Ok s0 ->
  get_snapshot device (after device host resolution calls s0) = (s', Ok p) ->
  p = Path tmpdir "screen.jpg"
  /\ exists body,
       picture device
         (requests (after device host resolution calls s0)
            ++ [GET_picture 102]) = Ok body
       /\ files s' !! p = Some (concat (chunks body)).
Proof.
  intros Hnew Hget.
  apply construct_Ok in Hnew as (Hdir & _).
  set (s := after device host resolution calls s0) in *.
  assert (Hs : snapshot_dir s = tmpdir).
  { pose proof (after_attributes device host resolution calls s0) as Ha.
    fold s in Ha. unfold attributes in Ha. congruence. }
  pose proof (get_snapshot_cases device s) as H. cbv zeta in H.
  destruct (picture device _) as [body|e].
  - destruct H as (s1 & Hrun & Hfile & _).
    rewrite Hrun in Hget.
    destruct (broken body); [discriminate|].
    injection Hget as <- <-. rewrite Hs in *.
    split; [reflexivity|]. now exists body.
  - rewrite H in Hget. discriminate.
Qed.

(** ** The PTZ probe *)


Lemma construct_cases device tmpdir :
  match capabilities device [GET_capabilities 1] with
  | Ok _ =>
      exists s0, construct device tmpdir = Ok s0 /\ ptz_supported s0 = true
  | Raise e =>
      if is_HTTPError e
      then exists s0,
             construct device tmpdir = Ok s0 /\ ptz_supported s0 = false
      else construct device tmpdir = Raise e
  end.
Proof.
  unfold construct, __init__, check_ptz_support, try_except, bind, modify,
    cam, ret. cbn.
  destruct (capabilities device _) as [doc|e]; cbn; [now eexists|].
  destruct (is_HTTPError e); cbn; [now eexists|reflexivity].
Qed.


(** An unreachable host: no adapter. *)
Example construct_unreachable :
  construct unreachable "/tmp/tmpq1" = Raise ConnectionError.
Proof. reflexivity. Qed.

(** C6: when the probe is answered with a client-error status, [__init__]
    returns with [ptz_supported] false, and from then on, after any use of the
    adapter, [get_video_settings] returns the empty dictionary and
    [change_video_settings] returns for every option dictionary, both leaving
    the state as it was: no request is issued. *)
Theorem no_ptz_no_request
    (device : Client) (host : list (Z * callback) -> callback -> result unit)
    (resolution : Z) (tmpdir : string) (code : Z) (calls : list call)
    (options : gmap string pyval) :
  400 <= code <= 499 ->
  capabilities device [GET_capabilities 1] = Raise (HTTPError code) ->
  exists s0,
    construct device tmpdir = Ok s0
    /\ ptz_supported s0 = false
    /\ let s := after device host resolution calls s0 in
       get_video_settings device s = (s, Ok ∅)
       /\ change_video_settings device options s = (s, Ok tt).
Proof.
  intros _ Hprobe.
  pose proof (construct_cases device tmpdir) as H.
  rewrite Hprobe in H. cbn in H. destruct H as (s0 & Hnew & Hptz).
  exists s0. split; [exact Hnew|]. split; [exact Hptz|].
  intros s.
  assert (Hs : ptz_supported s = false).
  { pose proof (after_attributes device host resolution calls s0) as Ha.
    fold s in Ha. unfold attributes in Ha. congruence. }
  unfold get_video_settings, change_video_settings, bind, gets, ret.
  now rewrite Hs.
Qed.

(** ** The motion debouncer *)

Section Debouncer.

Variable host : list (Z * callback) -> callback -> result unit.
Variable resolution : Z.

(** A signal while motion is active: no callback; the counter goes up and a
    handle is scheduled. *)
Lemma start_active s :
  motion_counter s <> 0 ->
  _trigger_motion_start host resolution s =
  (set_timers (schedule (clock s + motion_timeout s * resolution) (timers s))
     (set_motion_counter (motion_counter s + 1) s), Ok tt).
Proof.
  intros Hc. apply Z.eqb_neq in Hc.
  unfold _trigger_motion_start, call_later, bind, gets, modify, ret.
  now rewrite Hc.
Qed.

(** A signal while idle, the callback returning. *)
Lemma start_idle_returns s :
  motion_counter s = 0 ->
  host (host_calls s) trigger_motion_start = Ok tt ->
  _trigger_motion_start host resolution s =
  (set_timers (schedule (clock s + motion_timeout s * resolution) (timers s))
     (set_motion_counter 1
        (set_host_calls (host_calls s ++ [(clock s, trigger_motion_start)]) s)),
   Ok tt).
Proof.
  intros Hc Hh.
  unfold _trigger_motion_start, call_later, await, bind, gets, modify, ret.
  rewrite Hc. cbn. rewrite Hh. cbn. rewrite ?Hc. reflexivity.
Qed.

(** A signal while idle, the callback raising: the coroutine ends there. *)
Lemma start_idle_raises s e :
  motion_counter s = 0 ->
  host (host_calls s) trigger_motion_start = Raise e ->
  _trigger_motion_start host resolution s =
  (set_host_calls (host_calls s ++ [(clock s, trigger_motion_start)]) s,
   Raise e).
Proof.
  intros Hc Hh.
  unfold _trigger_motion_start, call_later, await, bind, gets, modify, ret.
  rewrite Hc. cbn. rewrite Hh. cbn. rewrite ?Hc. reflexivity.
Qed.

(** A handle fires while other signals are still counted. *)
Lemma stop_active s :
  1 < motion_counter s ->
  _trigger_motion_stop host s =
  (set_motion_counter (motion_counter s - 1) s, Ok tt).
Proof.
  intros Hc.
  unfold _trigger_motion_stop, await, bind, gets, modify, ret. cbn.
  destruct (Z.leb_spec (motion_counter s - 1) 0); [lia|reflexivity].
Qed.

(** A handle fires and nothing else is counted: the counter is set to 0
    before the callback is awaited. *)
Lemma stop_last s :
  motion_counter s <= 1 ->
  _trigger_motion_stop host s =
  (set_host_calls (host_calls s ++ [(clock s, trigger_motion_stop)])
     (set_motion_counter 0 s),
   host (host_calls s) trigger_motion_stop).
Proof.
  intros Hc.
  unfold _trigger_motion_stop, await, bind, gets, modify, ret. cbn.
  destruct (Z.leb_spec (motion_counter s - 1) 0); [|lia].
  now destruct (host _ _).
Qed.

Lemma length_schedule due queue :
  length (schedule due queue) = S (length queue).
Proof.
  induction queue as [|d rest IH]; [reflexivity|].
  cbn. destruct (due <? d); cbn; [reflexivity|now rewrite IH].
Qed.

(** A handle due no earlier than all the pending ones goes last. *)
Lemma schedule_last due queue :
  Forall (fun d => d <= due) queue -> schedule due queue = queue ++ [due].
Proof.
  induction 1 as [|d rest Hd _ IH]; [reflexivity|].
  cbn. destruct (Z.ltb_spec due d); [lia|now rewrite IH].
Qed.

End Debouncer.

(** C2, as stated, fails: when the start callback raises, the counter is not
    incremented and no handle is scheduled. *)
Lemma start_raises_no_update :
  snd (_trigger_motion_start failing_host 1000 idle) =
    Raise (HostError "send failed")
  /\ motion_counter (fst (_trigger_motion_start failing_host 1000 idle))
     <> motion_counter idle + 1
  /\ timers (fst (_trigger_motion_start failing_host 1000 idle)) = timers idle.
Proof. repeat split. cbn. discriminate. Qed.

(** C2 (amended): a signal processed while the counter is 0 awaits the start
    callback first; if the callback raises, the exception ends the
    coroutine, and the counter and the queue of handles stay as they were;
    in every other case the counter is incremented and a handle is
    scheduled [motion_timeout] seconds ahead.  In the stop path the counter
    is decremented, and set to 0 when that leaves it at or below 0, before
    the stop callback is awaited, hence whether or not it raises. *)
Theorem counter_update_around_callbacks
    (host : list (Z * callback) -> callback -> result unit)
    (resolution : Z) (s : HikvisionCam) :
  let started := _trigger_motion_start host resolution s in
  let stopped := _trigger_motion_stop host s in
  match (motion_counter s =? 0), host (host_calls s) trigger_motion_start with
  | true, Raise e =>
      snd started = Raise e
      /\ motion_counter (fst started) = motion_counter s
      /\ timers (fst started) = timers s
  | _, _ =>
      snd started = Ok tt
      /\ motion_counter (fst started) = motion_counter s + 1
      /\ timers (fst started) =
         schedule (clock s + motion_timeout s * resolution) (timers s)
  end
  /\ motion_counter (fst stopped) = Z.max 0 (motion_counter s - 1)
  /\ timers (fst stopped) = timers s
  /\ snd stopped =
     if motion_counter s <=? 1
     then host (host_calls s) trigger_motion_stop
     else Ok tt.
Proof.
  intros started stopped. split; [|split; [|split]].
  - subst started. destruct (Z.eqb_spec (motion_counter s) 0) as [Hc|Hc].
    + destruct (host (host_calls s) trigger_motion_start) as [[]|e] eqn:Hh.
      * rewrite (start_idle_returns _ _ _ Hc Hh). cbn. now rewrite Hc.
      * now rewrite (start_idle_raises _ _ _ _ Hc Hh).
    + now rewrite (start_active _ _ _ Hc).
  - subst stopped. destruct (Z.le_gt_cases (motion_counter s) 1) as [Hc|Hc].
    + rewrite (stop_last _ _ Hc). cbn. lia.
    + rewrite (stop_active _ _ Hc). cbn. lia.
  - subst stopped. destruct (Z.le_gt_cases (motion_counter s) 1) as [Hc|Hc].
    + now rewrite (stop_last _ _ Hc).
    + now rewrite (stop_active _ _ Hc).
  - subst stopped. destruct (Z.leb_spec (motion_counter s) 1) as [Hc|Hc].
    + now rewrite (stop_last _ _ Hc).
    + now rewrite (stop_active _ _ Hc).
Qed.

(** *** The counter and the pending handles *)

Section Interleavings.

Variable host : list (Z * callback) -> callback -> result unit.
Variable resolution : Z.

Lemma signal_balanced t s : balanced s -> balanced (signal host resolution t s).
Proof.
  unfold balanced, signal. intros Hb.
  destruct (Z.eq_dec (motion_counter s) 0) as [Hc|Hc].
  - destruct (host (host_calls s) trigger_motion_start) as [[]|e] eqn:Hh.
    + rewrite (start_idle_returns host resolution (set_clock t s) Hc Hh).
      cbn. rewrite length_schedule. lia.
    + now rewrite (start_idle_raises host resolution (set_clock t s) e Hc Hh).
  - rewrite (start_active host resolution (set_clock t s) Hc).
    cbn. rewrite length_schedule. lia.
Qed.

Lemma fire_balanced i due s :
  timers s !! i = Some due ->
  balanced s -> balanced (fire host due (delete i (timers s)) s).
Proof.
  unfold balanced, fire. intros Hi Hb.
  assert (Hlen : length (delete i (timers s)) = (length (timers s) - 1)%nat)
    by (apply length_delete; eauto).
  assert (Hpos : (0 < length (timers s))%nat)
    by (apply lookup_lt_Some in Hi; lia).
  set (s1 := set_clock due (set_timers (delete i (timers s)) s)).
  assert (Hc1 : motion_counter s1 = motion_counter s) by reflexivity.
  destruct (Z.le_gt_cases (motion_counter s1) 1) as [Hc|Hc].
  - rewrite (stop_last host s1 Hc). cbn. lia.
  - rewrite (stop_active host s1 Hc). cbn. lia.
Qed.

Lemma step_balanced e s s' :
  step host resolution e s = Some s' -> balanced s -> balanced s'.
Proof.
  destruct e as [t|i]; cbn [step].
  - intros [= <-]. apply signal_balanced.
  - destruct (timers s !! i) as [due|] eqn:Hi; [|discriminate].
    intros [= <-]. now apply fire_balanced.
Qed.

Lemma observe_balanced es : forall s trace,
  observe host resolution es s = Some trace ->
  balanced s -> Forall balanced trace.
Proof.
  induction es as [|e es IH]; intros s trace; cbn [observe].
  - intros [= <-] _. constructor.
  - destruct (step host resolution e s) as [s'|] eqn:Hstep; [|discriminate].
    destruct (observe host resolution es s') as [tr|] eqn:Hobs; [|discriminate].
    intros [= <-] Hb.
    pose proof (step_balanced _ _ _ Hstep Hb) as Hb'.
    constructor; [exact Hb'|]. now apply (IH s').
Qed.

End Interleavings.

(** C3: from the state [__init__] leaves, under every serialized
    interleaving of signals and firings of handles that were scheduled, the
    counter observed after every step is the number of handles still
    pending, and so is never negative. *)
Theorem motion_counter_never_negative
    (device : Client) (host : list (Z * callback) -> callback -> result unit)
    (resolution : Z) (tmpdir : string) (s0 : HikvisionCam)
    (es : list event) (trace : list HikvisionCam) :
  construct device tmpdir = Ok s0 ->
  observe host resolution es s0 = Some trace ->
  Forall (fun s => 0 <= motion_counter s
                   /\ motion_counter s = Z.of_nat (length (timers s))) trace.
Proof.
  intros Hnew Hobs.
  apply construct_Ok in Hnew as (_ & _ & Hc & Ht & _).
  assert (Hb : balanced s0) by (unfold balanced; now rewrite Hc, Ht).
  pose proof (observe_balanced host resolution es s0 trace Hobs Hb) as H.
  eapply Forall_impl; [exact H|].
  unfold balanced. intros s Hs. split; [lia|exact Hs].
Qed.

(** *** Lists of arrival times *)


(** ** The theorems at concrete inputs *)

(** Signals and firings interleaved, the handles fired out of order. *)
Lemma motion_counter_never_negative_witness :
  construct fixed_camera "/tmp/tmpq1" = Ok idle
  /\ observe calm_host 1000 sample_interleaving idle = Some sample_trace
  /\ Forall (fun s => 0 <= motion_counter s
                      /\ motion_counter s = Z.of_nat (length (timers s)))
       sample_trace.
Proof.
  split; [reflexivity|]. split; [vm_compute; reflexivity|].
  apply (motion_counter_never_negative fixed_camera calm_host 1000
           "/tmp/tmpq1" idle sample_interleaving sample_trace);
    [reflexivity|vm_compute; reflexivity].
Defined.

Lemma to_device_scaling_witness :
  0 <= 50 <= 100 /\ 0 <= 25 <= 100 /\ 0 <= 100 <= 100
  /\ ptz_supported idle_dome = true
  /\ to_device (telemetry 50 25 100) =
     Ok (9 * 50, 36 * 25, spec_floor (100 * 40) 100)
  /\ 9 * 50 = spec_round_half_up (50 * 900) 100
  /\ 36 * 25 = spec_round_half_up (25 * 3600) 100
  /\ requests (fst (change_video_settings dome_camera (telemetry 50 25 100)
                      idle_dome)) =
     requests idle_dome ++
       [PUT_absolute 1 (PTZData (spec_floor (100 * 40) 100) (36 * 25) (9 * 50))]
  /\ to_device (telemetry 50 25 100) = Ok (450, 900, 40).
Proof.
  split; [lia|]. split; [lia|]. split; [lia|]. split; [reflexivity|].
  apply (to_device_scaling dome_camera idle_dome 50 25 100);
    [lia|lia|lia|reflexivity].
Defined.

Lemma no_ptz_no_request_witness :
  400 <= 404 <= 499
  /\ capabilities fixed_camera [GET_capabilities 1] = Raise (HTTPError 404)
  /\ exists s0,
       construct fixed_camera "/tmp/tmpq1" = Ok s0
       /\ ptz_supported s0 = false
       /\ let s := after fixed_camera calm_host 1000
                     [Snapshot; GetVideoSettings; Loop (Signal 0)] s0 in
          get_video_settings fixed_camera s = (s, Ok ∅)
          /\ change_video_settings fixed_camera ∅ s = (s, Ok tt).
Proof.
  split; [lia|]. split; [reflexivity|].
  apply (no_ptz_no_request fixed_camera calm_host 1000 "/tmp/tmpq1" 404
           [Snapshot; GetVideoSettings; Loop (Signal 0)] ∅);
    [lia|reflexivity].
Defined.

Lemma to_telemetry_reads_azimuth_witness :
  0 <= 900 <= 3600
  /\ to_telemetry (PyDict (AbsoluteHigh 900 450 40)) =
     Ok {[ "brightness" := PyInt (spec_floor (900 * 100) 3600);
           "contrast" := PyInt (spec_floor (900 * 100) 3600);
           "hue" := PyInt (int_truediv (100 * 40) 40) ]}.
Proof.
  split; [lia|].
  apply (to_telemetry_reads_azimuth (AbsoluteHigh 900 450 40) 900 450 40).
  lia.
Defined.

Lemma hue_round_trip_witness :
  0 <= 50 <= 100
  /\ (50 * 40) mod 100 = 0
  /\ exists tilt pan zoom t,
       to_device (telemetry 50 25 50) = Ok (tilt, pan, zoom)
       /\ zoom = spec_round_half_up (50 * 40) 100
       /\ to_telemetry (PyDict (AbsoluteHigh 900 450 zoom)) = Ok t
       /\ t !! "hue" = Some (PyInt 50)
       /\ spec_floor (spec_round_half_up (50 * 40) 100 * 100) 40 = 50.
Proof.
  split; [lia|]. split; [reflexivity|].
  apply (hue_round_trip 50 25 50 900 450); [lia|reflexivity].
Defined.

Lemma get_snapshot_fixed_path_witness :
  construct fixed_camera "/tmp/tmpq1" = Ok idle
  /\ snd (get_snapshot fixed_camera
            (after fixed_camera calm_host 1000 [Snapshot; Loop (Signal 0)] idle))
     = Ok "/tmp/tmpq1/screen.jpg"
  /\ "/tmp/tmpq1/screen.jpg" = Path "/tmp/tmpq1" "screen.jpg".
Proof.
  split; [reflexivity|]. split; [vm_compute; reflexivity|].
  apply (get_snapshot_fixed_path fixed_camera calm_host 1000 "/tmp/tmpq1"
           [Snapshot; Loop (Signal 0)] idle
           (fst (get_snapshot fixed_camera
                   (after fixed_camera calm_host 1000
                      [Snapshot; Loop (Signal 0)] idle)))
           "/tmp/tmpq1/screen.jpg");
    [reflexivity|vm_compute; reflexivity].
Defined.

(** * Further properties *)

(** ** The stream source *)



(** ** The unit mapping, both directions *)

Lemma quot_100_bounds (n lo hi : Z) :
  0 <= n -> lo * 100 <= n -> n <= hi * 100 + 99 ->
  lo <= int_truediv n 100 <= hi.
Proof.
  intros Hn Hlo Hhi. rewrite int_truediv_floor by lia.
  unfold spec_floor. Z.div_mod_to_equations. lia.
Qed.

Lemma int_truediv_monotone (n m d : Z) :
  0 <= n <= m -> 0 < d -> int_truediv n d <= int_truediv m d.
Proof.
  intros Hnm Hd. rewrite !int_truediv_floor by lia.
  unfold spec_floor. apply Z.div_le_mono; lia.
Qed.

(** X2: a telemetry triple within [0,100] is sent as a position within the
    ranges of the device: elevation in [0,900], azimuth in [0,3600], zoom in
    [0,40]. *)
Theorem to_device_within_ranges (b c h : Z) :
  0 <= b <= 100 -> 0 <= c <= 100 -> 0 <= h <= 100 ->
  exists tilt pan zoom,
    to_device (telemetry b c h) = Ok (tilt, pan, zoom)
    /\ 0 <= tilt <= 900 /\ 0 <= pan <= 3600 /\ 0 <= zoom <= 40.
Proof.
  intros Hb Hc Hh. eexists _, _, _.
  split; [apply to_device_telemetry|].
  split; [apply quot_100_bounds; lia|].
  split; apply quot_100_bounds; lia.
Qed.

(** X3: the write direction is monotone in each setting. *)
Theorem to_device_monotone (b c h b' c' h' : Z) :
  0 <= b <= b' -> 0 <= c <= c' -> 0 <= h <= h' ->
  b' <= 100 -> c' <= 100 -> h' <= 100 ->
  exists tilt pan zoom tilt' pan' zoom',
    to_device (telemetry b c h) = Ok (tilt, pan, zoom)
    /\ to_device (telemetry b' c' h') = Ok (tilt', pan', zoom')
    /\ tilt <= tilt' /\ pan <= pan' /\ zoom <= zoom'.
Proof.
  intros Hb Hc Hh _ _ _. eexists _, _, _, _, _, _.
  split; [apply to_device_telemetry|].
  split; [apply to_device_telemetry|].
  split; [apply int_truediv_monotone; lia|].
  split; apply int_truediv_monotone; lia.
Qed.

(** X4: the write direction does not clamp: a brightness or a contrast above
    100 is sent as an elevation above 900 or an azimuth above 3600. *)
Theorem to_device_does_not_clamp (b c h : Z) :
  100 < b <= 10000 -> 100 < c <= 10000 -> 0 <= h <= 100 ->
  exists tilt pan zoom,
    to_device (telemetry b c h) = Ok (tilt, pan, zoom)
    /\ tilt = 9 * b /\ 900 < tilt
    /\ pan = 36 * c /\ 3600 < pan.
Proof.
  intros Hb Hc Hh. eexists _, _, _.
  split; [apply to_device_telemetry|].
  assert (Ht : int_truediv (900 * b) 100 = 9 * b).
  { rewrite int_truediv_floor by lia. unfold spec_floor.
    replace (900 * b) with (9 * b * 100) by lia. now apply Z.div_mul. }
  assert (Hp : int_truediv (3600 * c) 100 = 36 * c).
  { rewrite int_truediv_floor by lia. unfold spec_floor.
    replace (3600 * c) with (36 * c * 100) by lia. now apply Z.div_mul. }
  rewrite Ht, Hp. lia.
Qed.

(** X5: a position within the ranges of the device is read as settings
    within [0,100], and the read direction is monotone in azimuth and in
    zoom. *)
Theorem to_telemetry_within_range (az el zm az' el' zm' : Z) :
  0 <= az <= az' -> az' <= 3600 -> 0 <= zm <= zm' -> zm' <= 40 ->
  exists v w v' w',
    to_telemetry (PyDict (AbsoluteHigh az el zm)) =
      Ok {[ "brightness" := PyInt v; "contrast" := PyInt v;
            "hue" := PyInt w ]}
    /\ to_telemetry (PyDict (AbsoluteHigh az' el' zm')) =
      Ok {[ "brightness" := PyInt v'; "contrast" := PyInt v';
            "hue" := PyInt w' ]}
    /\ 0 <= v <= v' /\ v' <= 100 /\ 0 <= w <= w' /\ w' <= 100.
Proof.
  intros Haz Haz' Hzm Hzm'. eexists _, _, _, _.
  split; [apply to_telemetry_AbsoluteHigh|].
  split; [apply to_telemetry_AbsoluteHigh|].
  pose proof (int_truediv_monotone (100 * az) (100 * az') 3600) as H1.
  pose proof (int_truediv_monotone (100 * zm) (100 * zm') 40) as H2.
  rewrite !int_truediv_floor in * by lia. unfold spec_floor in *.
  repeat split; try (apply H1; lia); try (apply H2; lia);
    Z.div_mod_to_equations; lia.
Qed.

(** ** The PTZ methods *)

(** Options that do not convert never reach the device. *)
Lemma change_video_settings_invalid device options s e :
  ptz_supported s = true ->
  to_device options = Raise e ->
  change_video_settings device options s = (s, Raise e).
Proof.
  intros Hs Hd. unfold change_video_settings, bind, gets, lift.
  now rewrite Hs, Hd.
Qed.

Lemma change_video_settings_valid device options s tilt pan zoom :
  ptz_supported s = true ->
  to_device options = Ok (tilt, pan, zoom) ->
  let log := requests s ++ [PUT_absolute 1 (PTZData zoom pan tilt)] in
  change_video_settings device options s =
  (set_requests log s,
   match absolute device log with
   | Ok _ => Ok tt
   | Raise e => Raise e
   end).
Proof.
  intros Hs Hd log. unfold change_video_settings, bind, gets, lift, cam, ret.
  rewrite Hs, Hd. fold log. now destruct (absolute device log).
Qed.

Lemma to_device_missing options :
  options !! "brightness" = None \/ options !! "contrast" = None
  \/ options !! "hue" = None ->
  exists e,
    to_device options = Raise e
    /\ (options !! "brightness" = None -> e = KeyError "brightness").
Proof.
  intros H. unfold to_device, getitem.
  destruct (options !! "brightness") as [vb|] eqn:Hb.
  2: { eexists. split; [reflexivity|reflexivity]. }
  destruct (int vb) as [b|eb].
  2: { exists eb. split; [reflexivity|discriminate]. }
  destruct (options !! "contrast") as [vc|] eqn:Hc.
  2: { eexists. split; [reflexivity|discriminate]. }
  destruct (int vc) as [c|ec].
  2: { exists ec. split; [reflexivity|discriminate]. }
  destruct (options !! "hue") as [vh|] eqn:Hh.
  2: { eexists. split; [reflexivity|discriminate]. }
  destruct H as [H|[H|H]]; discriminate.
Qed.

(** X6: an option dictionary that lacks one of the three settings is
    refused before anything is sent: the call raises and leaves the state,
    and with it the request log, as it was; when it is the brightness that
    is missing the exception is [KeyError('brightness')]. *)
Theorem change_video_settings_rejects_partial
    (device : Client) (options : gmap string pyval) (s : HikvisionCam) :
  ptz_supported s = true ->
  options !! "brightness" = None \/ options !! "contrast" = None
  \/ options !! "hue" = None ->
  exists e,
    change_video_settings device options s = (s, Raise e)
    /\ (options !! "brightness" = None -> e = KeyError "brightness").
Proof.
  intros Hs Hmiss.
  destruct (to_device_missing options Hmiss) as (e & Hd & Hkey).
  exists e. split; [|exact Hkey].
  now apply change_video_settings_invalid.
Qed.

(** X7: settings given as decimal text are converted like integers: the
    call does exactly what it does for the integer triple. *)
Theorem change_video_settings_text_options
    (device : Client) (s : HikvisionCam) (b c h : Z) :
  change_video_settings device
    {[ "brightness" := PyStr (str b); "contrast" := PyStr (str c);
       "hue" := PyStr (str h) ]} s =
  change_video_settings device (telemetry b c h) s.
Proof.
  assert (Hd : to_device
            {[ "brightness" := PyStr (str b); "contrast" := PyStr (str c);
               "hue" := PyStr (str h) ]} = to_device (telemetry b c h)).
  { rewrite to_device_telemetry. unfold to_device, getitem.
    replace (({[ "brightness" := PyStr (str b); "contrast" := PyStr (str c);
                 "hue" := PyStr (str h) ]} : gmap string pyval)
               !! "brightness") with (Some (PyStr (str b))) by reflexivity.
    replace (({[ "brightness" := PyStr (str b); "contrast" := PyStr (str c);
                 "hue" := PyStr (str h) ]} : gmap string pyval)
               !! "contrast") with (Some (PyStr (str c))) by reflexivity.
    replace (({[ "brightness" := PyStr (str b); "contrast" := PyStr (str c);
                 "hue" := PyStr (str h) ]} : gmap string pyval)
               !! "hue") with (Some (PyStr (str h))) by reflexivity.
    now rewrite !int_str. }
  unfold change_video_settings, bind, gets, lift.
  now rewrite Hd.
Qed.

(** X8: with PTZ support and options that convert, the call issues exactly
    one PUT on channel 1 and changes nothing else; when the client raises
    for it the exception reaches the caller, and there is no second
    attempt. *)
Theorem change_video_settings_one_put
    (device : Client) (options : gmap string pyval) (s : HikvisionCam)
    (tilt pan zoom : Z) :
  ptz_supported s = true ->
  to_device options = Ok (tilt, pan, zoom) ->
  let log := requests s ++ [PUT_absolute 1 (PTZData zoom pan tilt)] in
  fst (change_video_settings device options s) = set_requests log s
  /\ snd (change_video_settings device options s) =
     match absolute device log with
     | Ok _ => Ok tt
     | Raise e => Raise e
     end.
Proof.
  intros Hs Hd log.
  pose proof (change_video_settings_valid device options s tilt pan zoom Hs Hd)
    as H. cbv zeta in H. fold log in H. now rewrite H.
Qed.

(** X9: with PTZ support, [get_video_settings] issues exactly one status
    request on channel 1 and changes nothing else, whatever the outcome; an
    exception of the client reaches the caller, and a document without a
    [PTZStatus] element raises [KeyError('PTZStatus')]. *)
Theorem get_video_settings_one_request
    (device : Client) (s : HikvisionCam) :
  ptz_supported s = true ->
  let log := requests s ++ [GET_status 1] in
  fst (get_video_settings device s) = set_requests log s
  /\ match status device log with
     | Raise e => snd (get_video_settings device s) = Raise e
     | Ok (PyDict d) =>
         d !! "PTZStatus" = None ->
         snd (get_video_settings device s) = Raise (KeyError "PTZStatus")
     | Ok _ => snd (get_video_settings device s) = Raise TypeError
     end.
Proof.
  intros Hs log. unfold get_video_settings, bind, gets, lift, cam.
  rewrite Hs. fold log.
  destruct (status device log) as [doc|e]; [|now split].
  split.
  - destruct (getitem doc "PTZStatus") as [p|]; [|reflexivity].
    destruct (getitem p "AbsoluteHigh") as [r|]; [|reflexivity].
    now destruct (to_telemetry r).
  - destruct doc as [|z|t|d]; try reflexivity.
    intros Hd. unfold getitem. now rewrite Hd.
Qed.

Lemma sent_position_PTZData channel zoom pan tilt :
  sent_position (PUT_absolute channel (PTZData zoom pan tilt)) =
  Some (PyDict (AbsoluteHigh pan tilt zoom)).
Proof. reflexivity. Qed.

(** X11: on a device that reports the position it was sent, settings
    within [0,100] that are written and then read come back as follows:
    the contrast exactly, the brightness as the contrast that was written,
    and the hue at most 2 below the hue that was written. *)
Theorem settings_read_back
    (device : Client) (s : HikvisionCam) (b c h : Z) :
  reports_position_sent device ->
  ptz_supported s = true ->
  0 <= b <= 100 -> 0 <= c <= 100 -> 0 <= h <= 100 ->
  let s1 := fst (change_video_settings device (telemetry b c h) s) in
  exists h',
    snd (get_video_settings device s1) =
      Ok {[ "brightness" := PyInt c; "contrast" := PyInt c;
            "hue" := PyInt h' ]}
    /\ h - 2 <= h' <= h.
Proof.
  intros Hdev Hs Hb Hc Hh s1.
  pose proof (change_video_settings_valid device (telemetry b c h) s _ _ _ Hs
                (to_device_telemetry b c h)) as Hput. cbv zeta in Hput.
  assert (Hs1 : s1 = set_requests
            (requests s ++
               [PUT_absolute 1 (PTZData (int_truediv (40 * h) 100)
                  (int_truediv (3600 * c) 100) (int_truediv (900 * b) 100))]) s)
    by (subst s1; now rewrite Hput).
  assert (Hst : status device (requests s1 ++ [GET_status 1]) =
                Ok (PTZStatus (PyDict (AbsoluteHigh (int_truediv (3600 * c) 100)
                   (int_truediv (900 * b) 100) (int_truediv (40 * h) 100))))).
  { rewrite Hs1. cbn [requests set_requests]. rewrite <- app_assoc.
    cbn [app]. apply Hdev. apply sent_position_PTZData. }
  exists (int_truediv (100 * int_truediv (40 * h) 100) 40).
  split.
  - rewrite (get_video_settings_supported device s1 _
               ltac:(rewrite Hs1; exact Hs) Hst).
    rewrite to_telemetry_AbsoluteHigh.
    assert (Hpan : int_truediv (100 * int_truediv (3600 * c) 100) 3600 = c).
    { rewrite (int_truediv_floor (3600 * c)) by lia. unfold spec_floor.
      replace (3600 * c) with (36 * c * 100) by lia.
      rewrite Z.div_mul by lia.
      rewrite int_truediv_floor by lia. unfold spec_floor.
      replace (100 * (36 * c)) with (c * 3600) by lia.
      now apply Z.div_mul. }
    now rewrite Hpan.
  - rewrite (int_truediv_floor (40 * h)) by lia. unfold spec_floor.
    assert (Hz : 0 <= 40 * h / 100) by (apply Z.div_pos; lia).
    rewrite int_truediv_floor by lia. unfold spec_floor.
    Z.div_mod_to_equations. lia.
Qed.

(** ** The snapshot and the file system *)

Section Files.

Variable device : Client.

(** Writing chunks to one path leaves the other files, the requests and the
    motion state alone. *)
Lemma write_chunks_frame path cs : forall s,
  let s' := fst (write_chunks path cs s) in
  motion_state s' = motion_state s
  /\ requests s' = requests s
  /\ forall q, q <> path -> files s' !! q = files s !! q.
Proof.
  induction cs as [|chunk rest IH]; intros s; [now cbn|].
  destruct chunk as [|b chunk].
  - change (write_chunks path ([] :: rest) s) with (write_chunks path rest s).
    apply IH.
  - set (s1 := set_files
                 (<[path := default [] (files s !! path) ++ b :: chunk]> (files s))
                 s).
    change (write_chunks path ((b :: chunk) :: rest) s)
      with (write_chunks path rest s1).
    destruct (IH s1) as (Hm & Hr & Hf). cbv zeta.
    split; [exact Hm|]. split; [exact Hr|].
    intros q Hq. rewrite (Hf q Hq). subst s1. cbn.
    now apply lookup_insert_ne.
Qed.

Lemma get_snapshot_frame s :
  let s' := fst (get_snapshot device s) in
  motion_state s' = motion_state s
  /\ forall q, q <> Path (snapshot_dir s) "screen.jpg" ->
               files s' !! q = files s !! q.
Proof.
  unfold get_snapshot, bind, gets, cam, open_wb, modify, iter_content, bind.
  destruct (picture device _) as [body|e]; [|now cbn].
  set (img_file := Path (snapshot_dir s) "screen.jpg").
  set (s1 := set_files _ _).
  pose proof (write_chunks_frame img_file (chunks body) s1) as H.
  cbv zeta in H. destruct H as (Hm & _ & Hf).
  destruct (write_chunks img_file (chunks body) s1) as [s2 [[]|e]] eqn:Hrun;
    cbn [fst] in *.
  - assert (Hgoal : motion_state s2 = motion_state s
              /\ forall q, q <> img_file -> files s2 !! q = files s !! q).
    { split; [exact Hm|]. intros q Hq. rewrite (Hf q Hq). subst s1. cbn.
      now apply lookup_insert_ne. }
    now destruct (broken body).
  - split; [exact Hm|]. intros q Hq. rewrite (Hf q Hq). subst s1. cbn.
    now apply lookup_insert_ne.
Qed.

End Files.

(** X12: when the GET of the snapshot fails, no file is created, truncated
    or written: the file system is as it was, and an earlier snapshot is
    still there. *)
Theorem get_snapshot_failed_get_keeps_files
    (device : Client) (s : HikvisionCam) (e : exn) :
  picture device (requests s ++ [GET_picture 102]) = Raise e ->
  snd (get_snapshot device s) = Raise e
  /\ files (fst (get_snapshot device s)) = files s.
Proof.
  intros Hget. pose proof (get_snapshot_cases device s) as H.
  cbv zeta in H. rewrite Hget in H. now rewrite H.
Qed.

(** X13: when the body breaks off while it is streamed, the call raises the
    exception of the stream, and [screen.jpg] is left holding the chunks
    received until then: the earlier snapshot is gone. *)
Theorem get_snapshot_broken_stream_leaves_part
    (device : Client) (s : HikvisionCam) (body : stream) (e : exn) :
  picture device (requests s ++ [GET_picture 102]) = Ok body ->
  broken body = Some e ->
  snd (get_snapshot device s) = Raise e
  /\ files (fst (get_snapshot device s))
       !! Path (snapshot_dir s) "screen.jpg" = Some (concat (chunks body)).
Proof.
  intros Hget Hbroken. pose proof (get_snapshot_cases device s) as H.
  cbv zeta in H. rewrite Hget, Hbroken in H.
  destruct H as (s' & Hrun & Hfile & _). now rewrite Hrun.
Qed.

(** X14: [get_snapshot] writes no file but [screen.jpg] in the snapshot
    directory, whether it returns or raises. *)
Theorem get_snapshot_touches_one_file
    (device : Client) (s : HikvisionCam) (q : string) :
  q <> Path (snapshot_dir s) "screen.jpg" ->
  files (fst (get_snapshot device s)) !! q = files s !! q.
Proof.
  intros Hq. pose proof (get_snapshot_frame device s) as H.
  cbv zeta in H. now apply H.
Qed.

(** ** What the calls leave alone *)

Section Separation.

Variable device : Client.
Variable host : list (Z * callback) -> callback -> result unit.
Variable resolution : Z.

Lemma get_video_settings_motion_state s :
  motion_state (fst (get_video_settings device s)) = motion_state s.
Proof.
  unfold get_video_settings, bind, gets, cam, lift, ret.
  destruct (ptz_supported s); [|reflexivity].
  destruct (status device _) as [doc|]; [|reflexivity].
  destruct (getitem doc _) as [q|]; [|reflexivity].
  destruct (getitem q _) as [r|]; [|reflexivity].
  now destruct (to_telemetry r).
Qed.

Lemma change_video_settings_motion_state options s :
  motion_state (fst (change_video_settings device options s)) = motion_state s.
Proof.
  unfold change_video_settings, bind, gets, cam, lift, ret.
  destruct (ptz_supported s); [|reflexivity].
  destruct (to_device options) as [[[tilt pan] zoom]|]; [|reflexivity].
  now destruct (absolute device _).
Qed.

End Separation.

(** X15: the methods that talk to the device never touch the motion
    state: the counter, the clock of the loop, the pending handles and the
    record of callbacks are the same after a snapshot, a read or a change of
    the video settings, whether the call returns or raises. *)
Theorem device_calls_keep_motion_state
    (device : Client) (host : list (Z * callback) -> callback -> result unit)
    (resolution : Z) (options : gmap string pyval) (s : HikvisionCam) :
  motion_state (perform device host resolution Snapshot s) = motion_state s
  /\ motion_state (perform device host resolution GetVideoSettings s)
     = motion_state s
  /\ motion_state
       (perform device host resolution (ChangeVideoSettings options) s)
     = motion_state s.
Proof.
  cbn [perform]. split; [|split].
  - pose proof (get_snapshot_frame device s) as H. cbv zeta in H. apply H.
  - apply get_video_settings_motion_state.
  - apply change_video_settings_motion_state.
Qed.

(** ** A start callback that raises *)

Section FailingStart.

Variable host : list (Z * callback) -> callback -> result unit.
Variable resolution : Z.
Variable timer_first : Z -> bool.

Hypothesis start_raises :
  forall h, exists e, host h trigger_motion_start = Raise e.

Lemma arrivals_start_raising arrivals : forall s,
  motion_counter s = 0 -> timers s = [] ->
  let s' := fold_left (fun s t => arrive host resolution timer_first t s)
              arrivals s in
  motion_counter s' = 0 /\ timers s' = []
  /\ host_calls s' =
     host_calls s ++ map (fun t => (t, trigger_motion_start)) arrivals.
Proof.
  induction arrivals as [|t rest IH]; intros s Hc Ht.
  - cbn. now rewrite app_nil_r.
  - cbn [fold_left map].
    assert (Harr : arrive host resolution timer_first t s =
              set_host_calls (host_calls s ++ [(t, trigger_motion_start)])
                (set_clock t s)).
    { unfold arrive, signal. rewrite Ht. cbn [run_due].
      destruct (start_raises (host_calls s)) as [e He].
      now rewrite (start_idle_raises host resolution (set_clock t s) e Hc He). }
    rewrite Harr.
    destruct (IH (set_host_calls (host_calls s ++ [(t, trigger_motion_start)])
                    (set_clock t s)) Hc Ht) as (H1 & H2 & H3).
    cbv zeta. rewrite H1, H2, H3. cbn. now rewrite <- app_assoc.
Qed.

End FailingStart.

(** X20: while the start callback raises, every signal awaits it again:
    nothing is counted, no handle is scheduled and no stop is ever
    reported. *)
Theorem failing_start_is_retried
    (device : Client) (host : list (Z * callback) -> callback -> result unit)
    (resolution : Z) (timer_first : Z -> bool) (tmpdir : string)
    (s0 : HikvisionCam) (arrivals : list Z) :
  construct device tmpdir = Ok s0 ->
  (forall h, exists e, host h trigger_motion_start = Raise e) ->
  let s := run host resolution timer_first arrivals s0 in
  host_calls s = map (fun t => (t, trigger_motion_start)) arrivals
  /\ motion_counter s = 0
  /\ timers s = [].
Proof.
  intros Hnew Hhost.
  apply construct_Ok in Hnew as (_ & _ & Hc & Ht & Hcalls & _).
  pose proof (arrivals_start_raising host resolution timer_first Hhost
                arrivals s0 Hc Ht) as H.
  cbv zeta in H. destruct H as (H1 & H2 & H3).
  unfold run. cbv zeta. rewrite H2. cbn [run_all].
  now rewrite H1, H2, H3, Hcalls.
Qed.

(** ** The worker *)

Lemma for_response_app pre : forall rest w,
  Forall readable pre ->
  for_response (pre ++ rest) w =
  for_response rest
    {| submitted := submitted w ++ motion_times pre;
       tracebacks := tracebacks w |}.
Proof.
  induction pre as [|[t r] pre IH]; intros rest w Hall.
  - cbn. rewrite app_nil_r. now destruct w.
  - inversion Hall as [|? ? [b Hb] Hpre]; subst. cbn [snd] in Hb.
    cbn [app for_response]. unfold motion_times. cbn [List.filter snd].
    rewrite Hb. destruct b.
    + rewrite (IH rest _ Hpre). unfold run_coroutine_threadsafe, motion_times.
      cbn [submitted tracebacks map fst]. now rewrite <- app_assoc.
    + now rewrite (IH rest _ Hpre).
Qed.

Lemma for_response_readable records w :
  Forall readable records ->
  for_response records w =
  ({| submitted := submitted w ++ motion_times records;
      tracebacks := tracebacks w |}, Ok tt).
Proof.
  intros Hall.
  rewrite <- (app_nil_r records) at 1.
  now rewrite (for_response_app records [] w Hall).
Qed.

Lemma turn_readable response w :
  Forall readable (notifications response) ->
  turn response w =
  {| submitted := submitted w ++ motion_times (notifications response);
     tracebacks := tracebacks w ++ failure response |}.
Proof.
  intros Hall. unfold turn, poll.
  destruct response as [e| |records [e|]]; cbn [notifications failure] in *.
  - unfold print_exc, motion_times. cbn. now rewrite app_nil_r.
  - unfold motion_times. cbn. rewrite !app_nil_r. now destruct w.
  - now rewrite (for_response_readable records w Hall).
  - rewrite (for_response_readable records w Hall).
    now rewrite app_nil_r.
Qed.

Lemma _worker_readable feed : forall w,
  Forall (fun response => Forall readable (notifications response)) feed ->
  _worker feed w =
  {| submitted :=
       submitted w ++ flat_map (fun r => motion_times (notifications r)) feed;
     tracebacks := tracebacks w ++ flat_map failure feed |}.
Proof.
  unfold _worker.
  induction feed as [|response feed IH]; intros w Hall.
  - cbn. rewrite !app_nil_r. now destruct w.
  - inversion Hall as [|? ? Hr Hfeed]; subst. cbn [fold_left flat_map].
    rewrite (IH _ Hfeed), (turn_readable response w Hr).
    cbn [submitted tracebacks]. now rewrite <- !app_assoc.
Qed.

(** X21: a notification is a motion alarm exactly when it is a dictionary
    whose [EventNotificationAlert] element is a dictionary with [eventType]
    the text [VMD] and [eventDescription] the text [Motion alarm]; for any
    other event type the description is not looked at, so that a
    notification without one is passed over; a [VMD] notification
    without a description raises [KeyError('eventDescription')]. *)
Theorem is_motion_alarm_iff (r : pyval) (event : gmap string pyval) :
  (is_motion_alarm r = Ok true <->
   exists d ev,
     r = PyDict d
     /\ d !! "EventNotificationAlert" = Some (PyDict ev)
     /\ ev !! "eventType" = Some (PyStr "VMD")
     /\ ev !! "eventDescription" = Some (PyStr "Motion alarm"))
  /\ (forall ty,
        event !! "eventType" = Some ty -> eq_str ty "VMD" = false ->
        is_motion_alarm
          (PyDict {[ "EventNotificationAlert" := PyDict event ]}) = Ok false)
  /\ (event !! "eventType" = Some (PyStr "VMD") ->
      event !! "eventDescription" = None ->
      is_motion_alarm
        (PyDict {[ "EventNotificationAlert" := PyDict event ]}) =
      Raise (KeyError "eventDescription")).
Proof.
  split; [split|split].
  - unfold is_motion_alarm, getitem. intros H.
    destruct r as [| | |d]; try discriminate.
    destruct (d !! "EventNotificationAlert") as [[| | |ev]|] eqn:Hev;
      try discriminate.
    destruct (ev !! "eventType") as [ty|] eqn:Hty; [|discriminate].
    destruct (eq_str ty "VMD") eqn:Hvmd; [|discriminate].
    destruct (ev !! "eventDescription") as [ds|] eqn:Hds; [|discriminate].
    injection H as H.
    destruct ty as [| |ty|]; try discriminate.
    destruct ds as [| |ds|]; try discriminate.
    cbn [eq_str] in *. apply String.eqb_eq in Hvmd, H. subst.
    now exists d, ev.
  - intros (d & ev & -> & Hev & Hty & Hds).
    unfold is_motion_alarm, getitem. now rewrite Hev, Hty, Hds.
  - intros ty Hty Hvmd. unfold is_motion_alarm, getitem.
    rewrite lookup_singleton_eq, Hty, Hvmd. reflexivity.
  - intros Hty Hds. unfold is_motion_alarm, getitem.
    rewrite lookup_singleton_eq, Hty, Hds. reflexivity.
Qed.

(** X22: within one response the worker submits a start for every motion
    alarm, in order, as long as the notifications are readable; the first
    unreadable one raises out of the loop, the starts already submitted
    stay, and the notifications after it are never looked at. *)
Theorem for_response_stops_at_unreadable
    (pre rest : list (Z * pyval)) (t : Z) (bad : pyval) (e : exn)
    (w : Worker) :
  Forall readable pre ->
  is_motion_alarm bad = Raise e ->
  for_response pre w =
    ({| submitted := submitted w ++ motion_times pre;
        tracebacks := tracebacks w |}, Ok tt)
  /\ for_response (pre ++ (t, bad) :: rest) w =
    ({| submitted := submitted w ++ motion_times pre;
        tracebacks := tracebacks w |}, Raise e).
Proof.
  intros Hpre Hbad. split; [now apply for_response_readable|].
  rewrite (for_response_app pre _ w Hpre). cbn [for_response].
  now rewrite Hbad.
Qed.

(** X23: the worker outlives every failure: over any number of turns in
    which the notifications are readable, the starts submitted are the
    motion alarms of all the responses in order, and each connection that
    fails or breaks off only adds its exception to what is printed; the
    turns after it are served as usual. *)
Theorem worker_outlives_failures (feed : list alertStream) (w : Worker) :
  Forall (fun response => Forall readable (notifications response)) feed ->
  submitted (_worker feed w) =
    submitted w ++ flat_map (fun r => motion_times (notifications r)) feed
  /\ tracebacks (_worker feed w) = tracebacks w ++ flat_map failure feed.
Proof.
  intros Hall. now rewrite (_worker_readable feed w Hall).
Qed.

(** ** The further properties at concrete inputs *)

Lemma to_device_within_ranges_witness :
  0 <= 50 <= 100 /\ 0 <= 25 <= 100 /\ 0 <= 100 <= 100
  /\ exists tilt pan zoom,
       to_device (telemetry 50 25 100) = Ok (tilt, pan, zoom)
       /\ 0 <= tilt <= 900 /\ 0 <= pan <= 3600 /\ 0 <= zoom <= 40.
Proof.
  split; [lia|]. split; [lia|]. split; [lia|].
  apply (to_device_within_ranges 50 25 100); lia.
Defined.

Lemma to_device_monotone_witness :
  0 <= 10 <= 50 /\ 0 <= 25 <= 25 /\ 0 <= 7 <= 8
  /\ 50 <= 100 /\ 25 <= 100 /\ 8 <= 100
  /\ exists tilt pan zoom tilt' pan' zoom',
       to_device (telemetry 10 25 7) = Ok (tilt, pan, zoom)
       /\ to_device (telemetry 50 25 8) = Ok (tilt', pan', zoom')
       /\ tilt <= tilt' /\ pan <= pan' /\ zoom <= zoom'.
Proof.
  split; [lia|]. split; [lia|]. split; [lia|].
  split; [lia|]. split; [lia|]. split; [lia|].
  apply (to_device_monotone 10 25 7 50 25 8); lia.
Defined.

Lemma to_device_does_not_clamp_witness :
  100 < 150 <= 10000 /\ 100 < 200 <= 10000 /\ 0 <= 50 <= 100
  /\ exists tilt pan zoom,
       to_device (telemetry 150 200 50) = Ok (tilt, pan, zoom)
       /\ tilt = 9 * 150 /\ 900 < tilt
       /\ pan = 36 * 200 /\ 3600 < pan.
Proof.
  split; [lia|]. split; [lia|]. split; [lia|].
  apply (to_device_does_not_clamp 150 200 50); lia.
Defined.

Lemma to_telemetry_within_range_witness :
  0 <= 900 <= 1800 /\ 1800 <= 3600 /\ 0 <= 10 <= 40 /\ 40 <= 40
  /\ exists v w v' w',
       to_telemetry (PyDict (AbsoluteHigh 900 450 10)) =
         Ok {[ "brightness" := PyInt v; "contrast" := PyInt v;
               "hue" := PyInt w ]}
       /\ to_telemetry (PyDict (AbsoluteHigh 1800 0 40)) =
         Ok {[ "brightness" := PyInt v'; "contrast" := PyInt v';
               "hue" := PyInt w' ]}
       /\ 0 <= v <= v' /\ v' <= 100 /\ 0 <= w <= w' /\ w' <= 100.
Proof.
  split; [lia|]. split; [lia|]. split; [lia|]. split; [lia|].
  apply (to_telemetry_within_range 900 450 10 1800 0 40); lia.
Defined.

(** Only the hue is given. *)
Lemma change_video_settings_rejects_partial_witness :
  ptz_supported idle_dome = true
  /\ ({[ "hue" := PyInt 50 ]} : gmap string pyval) !! "brightness" = None
  /\ exists e,
       change_video_settings dome_camera {[ "hue" := PyInt 50 ]} idle_dome =
         (idle_dome, Raise e)
       /\ (({[ "hue" := PyInt 50 ]} : gmap string pyval) !! "brightness"
             = None -> e = KeyError "brightness").
Proof.
  split; [reflexivity|]. split; [reflexivity|].
  apply (change_video_settings_rejects_partial dome_camera
           {[ "hue" := PyInt 50 ]} idle_dome);
    [reflexivity|left; reflexivity].
Defined.

Lemma change_video_settings_one_put_witness :
  ptz_supported idle_dome = true
  /\ to_device (telemetry 50 25 100) = Ok (450, 900, 40)
  /\ fst (change_video_settings flaky_camera (telemetry 50 25 100) idle_dome)
     = set_requests
         (requests idle_dome ++ [PUT_absolute 1 (PTZData 40 900 450)])
         idle_dome
  /\ snd (change_video_settings flaky_camera (telemetry 50 25 100) idle_dome)
     = Raise (HTTPError 404).
Proof.
  split; [reflexivity|]. split; [vm_compute; reflexivity|].
  apply (change_video_settings_one_put flaky_camera (telemetry 50 25 100)
           idle_dome 450 900 40);
    [reflexivity|vm_compute; reflexivity].
Defined.

Lemma get_video_settings_one_request_witness :
  ptz_supported idle_dome = true
  /\ fst (get_video_settings flaky_camera idle_dome) =
     set_requests (requests idle_dome ++ [GET_status 1]) idle_dome
  /\ snd (get_video_settings flaky_camera idle_dome) = Raise (HTTPError 404).
Proof.
  split; [reflexivity|].
  apply (get_video_settings_one_request flaky_camera idle_dome).
  reflexivity.
Defined.

Lemma settings_read_back_witness :
  reports_position_sent echo_dome
  /\ ptz_supported idle_dome = true
  /\ 0 <= 50 <= 100 /\ 0 <= 25 <= 100 /\ 0 <= 99 <= 100
  /\ exists h',
       snd (get_video_settings echo_dome
              (fst (change_video_settings echo_dome (telemetry 50 25 99)
                      idle_dome))) =
         Ok {[ "brightness" := PyInt 25; "contrast" := PyInt 25;
               "hue" := PyInt h' ]}
       /\ 99 - 2 <= h' <= 99.
Proof.
  assert (Hecho : reports_position_sent echo_dome).
  { intros log r position H. unfold echo_dome. cbn [status].
    rewrite rev_app_distr. cbn [rev app]. now rewrite H. }
  split; [exact Hecho|]. split; [reflexivity|].
  split; [lia|]. split; [lia|]. split; [lia|].
  apply (settings_read_back echo_dome idle_dome 50 25 99);
    [exact Hecho|reflexivity|lia|lia|lia].
Defined.

Lemma get_snapshot_failed_get_keeps_files_witness :
  picture unreachable (requests idle ++ [GET_picture 102]) =
    Raise ConnectionError
  /\ snd (get_snapshot unreachable idle) = Raise ConnectionError
  /\ files (fst (get_snapshot unreachable idle)) = files idle.
Proof.
  split; [reflexivity|].
  apply (get_snapshot_failed_get_keeps_files unreachable idle ConnectionError).
  reflexivity.
Defined.

Lemma get_snapshot_broken_stream_leaves_part_witness :
  broken {| chunks := [[Byte.xff; Byte.xd8]];
            broken := Some ChunkedEncodingError |} = Some ChunkedEncodingError
  /\ snd (get_snapshot flaky_camera idle) = Raise ChunkedEncodingError
  /\ files (fst (get_snapshot flaky_camera idle))
       !! Path (snapshot_dir idle) "screen.jpg" =
     Some (concat [[Byte.xff; Byte.xd8]]).
Proof.
  split; [reflexivity|].
  apply (get_snapshot_broken_stream_leaves_part flaky_camera idle
           {| chunks := [[Byte.xff; Byte.xd8]];
              broken := Some ChunkedEncodingError |} ChunkedEncodingError);
    reflexivity.
Defined.

Lemma get_snapshot_touches_one_file_witness :
  "/tmp/tmpq1/other.jpg" <> Path (snapshot_dir idle) "screen.jpg"
  /\ files (fst (get_snapshot fixed_camera idle)) !! "/tmp/tmpq1/other.jpg" =
     files idle !! "/tmp/tmpq1/other.jpg".
Proof.
  split; [vm_compute; discriminate|].
  apply (get_snapshot_touches_one_file fixed_camera idle "/tmp/tmpq1/other.jpg").
  vm_compute; discriminate.
Defined.

Lemma failing_start_is_retried_witness :
  construct fixed_camera "/tmp/tmpq1" = Ok idle
  /\ (forall h, exists e, failing_host h trigger_motion_start = Raise e)
  /\ host_calls (run failing_host 1000 (fun _ => true) [0; 3000] idle) =
     [(0, trigger_motion_start); (3000, trigger_motion_start)].
Proof.
  split; [reflexivity|]. split; [intros h; eexists; reflexivity|].
  apply (failing_start_is_retried fixed_camera failing_host 1000
           (fun _ => true) "/tmp/tmpq1" idle [0; 3000]);
    [reflexivity|intros h; eexists; reflexivity].
Defined.

(** A notification that is not a dictionary, between two motion alarms. *)
Lemma for_response_stops_at_unreadable_witness :
  Forall readable [(0, alert "VMD" "Motion alarm")]
  /\ is_motion_alarm PyNone = Raise TypeError
  /\ for_response
       ([(0, alert "VMD" "Motion alarm")]
          ++ (1, PyNone) :: [(2, alert "VMD" "Motion alarm")]) started =
     ({| submitted := submitted started
                      ++ motion_times [(0, alert "VMD" "Motion alarm")];
         tracebacks := tracebacks started |}, Raise TypeError).
Proof.
  assert (Hpre : Forall readable [(0, alert "VMD" "Motion alarm")]).
  { constructor; [exists true; reflexivity|constructor]. }
  split; [exact Hpre|]. split; [reflexivity|].
  apply (for_response_stops_at_unreadable
           [(0, alert "VMD" "Motion alarm")]
           [(2, alert "VMD" "Motion alarm")] 1 PyNone TypeError started);
    [exact Hpre|reflexivity].
Defined.

Lemma sample_feed_readable :
  Forall (fun response => Forall readable (notifications response))
    sample_feed.
Proof.
  repeat constructor; eexists; vm_compute; reflexivity.
Defined.

Lemma worker_outlives_failures_witness :
  Forall (fun response => Forall readable (notifications response))
    sample_feed
  /\ submitted (_worker sample_feed started) =
     submitted started
       ++ flat_map (fun r => motion_times (notifications r)) sample_feed
  /\ tracebacks (_worker sample_feed started) =
     tracebacks started ++ flat_map failure sample_feed.
Proof.
  split; [exact sample_feed_readable|].
  apply (worker_outlives_failures sample_feed started).
  exact sample_feed_readable.
Defined.

(** * The debouncer, coroutine by coroutine *)

(** ** What each occurrence does to the motion state *)

Section Occurrences.

Variable base : Base.
Variable resolution : Z.

Hypothesis base_keeps : keeps_motion_state (uses base).

Lemma view_count_and_schedule a b :
  view a = view b ->
  view (count_and_schedule resolution a) =
  (motion_timeout b, motion_counter b + 1, clock b,
   schedule (clock b + motion_timeout b * resolution) (timers b),
   host_calls b).
Proof.
  unfold view. intros [= Hmt Hc Hk Ht Hcalls]. cbn.
  now rewrite Hmt, Hc, Hk, Ht, Hcalls.
Qed.




(** A signal while the counter is 0, the callback raising at once. *)
Lemma starts_idle_raises t l e :
  clock (adapter l) <= t ->
  motion_counter (adapter l) = 0 ->
  suspends base (host_calls (adapter l)) = false ->
  returns base (host_calls (adapter l)) trigger_motion_start = Raise e ->
  exists l',
    starts base resolution t l = Some l'
    /\ suspended l' = suspended l
    /\ view (adapter l') =
       (motion_timeout (adapter l), 0, t, timers (adapter l),
        host_calls (adapter l) ++ [(t, trigger_motion_start)]).
Proof.
  intros Hk Hc Hs Hr. unfold starts.
  destruct (Z.leb_spec (clock (adapter l)) t); [|lia].
  cbn [motion_counter set_clock host_calls]. rewrite Hc, Hs, Hr. cbn [Z.eqb].
  eexists. split; [reflexivity|]. split; [reflexivity|].
  cbn [adapter]. rewrite (base_keeps trigger_motion_start _).
  unfold view. cbn. now rewrite Hc.
Qed.

(** A signal while the counter is 0, the callback giving control back to
    the loop: the counter is still 0 when the loop goes on. *)
Lemma starts_idle_suspends t l :
  clock (adapter l) <= t ->
  motion_counter (adapter l) = 0 ->
  suspends base (host_calls (adapter l)) = true ->
  exists l',
    starts base resolution t l = Some l'
    /\ suspended l' = S (suspended l)
    /\ view (adapter l') =
       (motion_timeout (adapter l), 0, t, timers (adapter l),
        host_calls (adapter l) ++ [(t, trigger_motion_start)]).
Proof.
  intros Hk Hc Hs. unfold starts.
  destruct (Z.leb_spec (clock (adapter l)) t); [|lia].
  cbn [motion_counter set_clock host_calls]. rewrite Hc, Hs. cbn [Z.eqb].
  eexists. split; [reflexivity|]. split; [reflexivity|].
  unfold view. cbn. now rewrite Hc.
Qed.

(** The awaited callback returns and the coroutine goes on. *)
Lemma resumes_returns t l n :
  suspended l = S n ->
  clock (adapter l) <= t ->
  exists l',
    resumes base resolution t (Ok tt) l = Some l'
    /\ suspended l' = n
    /\ view (adapter l') =
       (motion_timeout (adapter l), motion_counter (adapter l) + 1, t,
        schedule (t + motion_timeout (adapter l) * resolution)
          (timers (adapter l)),
        host_calls (adapter l)).
Proof.
  intros Hn Hk. unfold resumes. rewrite Hn.
  destruct (Z.leb_spec (clock (adapter l)) t); [|lia].
  eexists. split; [reflexivity|]. split; [reflexivity|].
  cbn [adapter].
  now rewrite (view_count_and_schedule _ _ (base_keeps trigger_motion_start _)).
Qed.



(** A handle fires while others are counted. *)
Lemma fires_more i late due l :
  timers (adapter l) !! i = Some due ->
  0 <= late -> clock (adapter l) <= due + late ->
  1 < motion_counter (adapter l) ->
  exists l',
    fires base i late l = Some l'
    /\ suspended l' = suspended l
    /\ view (adapter l') =
       (motion_timeout (adapter l), motion_counter (adapter l) - 1,
        due + late, delete i (timers (adapter l)), host_calls (adapter l)).
Proof.
  intros Hi Hlate Hk Hc. unfold fires. rewrite Hi.
  destruct (Z.leb_spec 0 late); [|lia].
  destruct (Z.leb_spec (clock (adapter l)) (due + late)); [|lia].
  cbn [andb motion_counter set_motion_counter].
  destruct (Z.leb_spec (motion_counter (adapter l) - 1) 0); [lia|].
  eexists. split; [reflexivity|]. split; reflexivity.
Qed.

(** The last counted handle fires: the stop callback is awaited. *)
Lemma fires_last i late due l :
  timers (adapter l) !! i = Some due ->
  0 <= late -> clock (adapter l) <= due + late ->
  motion_counter (adapter l) <= 1 ->
  exists l',
    fires base i late l = Some l'
    /\ suspended l' = suspended l
    /\ view (adapter l') =
       (motion_timeout (adapter l), 0, due + late,
        delete i (timers (adapter l)),
        host_calls (adapter l) ++ [(due + late, trigger_motion_stop)]).
Proof.
  intros Hi Hlate Hk Hc. unfold fires. rewrite Hi.
  destruct (Z.leb_spec 0 late); [|lia].
  destruct (Z.leb_spec (clock (adapter l)) (due + late)); [|lia].
  cbn [andb motion_counter set_motion_counter].
  destruct (Z.leb_spec (motion_counter (adapter l) - 1) 0); [|lia].
  eexists. split; [reflexivity|]. split; [reflexivity|].
  cbn [adapter]. rewrite (base_keeps trigger_motion_stop _). reflexivity.
Qed.

End Occurrences.

(** ** The queue of handles *)







(** ** Motion from its start to its stop *)

Section Reporting.

Variable base : Base.
Variable resolution : Z.

Hypothesis base_keeps : keeps_motion_state (uses base).
Hypothesis never_suspends : forall h, suspends base h = false.
Hypothesis start_returns :
  forall h, returns base h trigger_motion_start = Ok tt.

Local Abbreviation timeout := (5 * resolution).











End Reporting.

(** ** A loop that is never late *)









Section OnTime.

Variable base : Base.
Variable resolution : Z.
Hypothesis base_keeps : keeps_motion_state (uses base).
Hypothesis never_suspends : forall h, suspends base h = false.
Hypothesis start_returns :
  forall h, returns base h trigger_motion_start = Ok tt.
Hypothesis resolution_nonneg : 0 <= resolution.






End OnTime.

(** ** Bursts as the host sees them *)



(** A handle due no earlier than the only pending one goes behind it. *)
Lemma schedule_after a b : a <= b -> schedule b [a] = [a; b].
Proof.
  intros Hle. cbn [schedule]. destruct (Z.ltb_spec b a); [|reflexivity].
  replace b with a by lia. reflexivity.
Qed.

(** The fields of the motion state after an occurrence. *)
Ltac field_equations Hv :=
  unfold view in Hv;
  injection Hv as ?Hmt ?Hc ?Hk ?Ht ?Hcalls.





(** X25: a start callback that suspends at line 109 leaves the counter at 0
    until it completes.  A second signal processed in between awaits the
    start callback again: the host sees two starts; when both coroutines
    have resumed, the second within the timeout after the first, and the two
    handles have run at their due times, one stop has followed, at the
    timeout after the second resumption.  The callbacks leave the motion
    state alone. *)
Theorem suspended_start_is_awaited_again (base : Base) (resolution : Z)
    (log : list (Z * callback)) (s0 : HikvisionCam) (t1 t2 r1 r2 : Z) :
  keeps_motion_state (uses base) ->
  (forall h, suspends base h = true) ->
  quiet log s0 ->
  clock s0 <= t1 -> t1 <= t2 -> t2 <= r1 -> r1 <= r2 ->
  r2 <= r1 + 5 * resolution ->
  exists l,
    play base resolution
      [Starts t1; Starts t2; Resumes r1 (Ok tt); Resumes r2 (Ok tt);
       Fires 0 0; Fires 0 0] {| adapter := s0; suspended := 0 |} = Some l
    /\ timers (adapter l) = []
    /\ motion_counter (adapter l) = 0
    /\ host_calls (adapter l) =
         log ++ [(t1, trigger_motion_start); (t2, trigger_motion_start);
                 (r2 + 5 * resolution, trigger_motion_stop)].
Proof.
  intros Hkeep Hsusp (Hmt0 & Hc0 & Ht0 & Hcalls0) Hk0 H12 H2r Hrr Hdue.
  set (l0 := {| adapter := s0; suspended := 0 |}).
  destruct (starts_idle_suspends base resolution t1 l0 Hk0 Hc0 (Hsusp _))
    as (l1 & H1 & Hs1 & Hv1).
  field_equations Hv1. cbn [adapter suspended l0] in *.
  destruct (starts_idle_suspends base resolution t2 l1 ltac:(lia) Hc
              (Hsusp _)) as (l2 & H2 & Hs2 & Hv2).
  field_equations Hv2.
  destruct (resumes_returns base resolution Hkeep r1 l2 1
              ltac:(congruence) ltac:(lia)) as (l3 & H3 & Hs3 & Hv3).
  field_equations Hv3.
  rewrite Hmt1, Hmt, Hmt0, Ht1, Ht, Ht0 in Ht2. cbn [schedule] in Ht2.
  rewrite Hc1 in Hc2.
  destruct (resumes_returns base resolution Hkeep r2 l3 0
              Hs3 ltac:(lia)) as (l4 & H4 & Hs4 & Hv4).
  field_equations Hv4.
  rewrite Hmt2, Hmt1, Hmt, Hmt0, Ht2, schedule_after in Ht3 by lia.
  rewrite Hc2 in Hc3.
  destruct (fires_more base 0 0 (r1 + 5 * resolution) l4)
    as (l5 & H5 & Hs5 & Hv5);
    [now rewrite Ht3|lia|lia|lia|].
  field_equations Hv5. rewrite Ht3 in Ht4. cbn in Ht4.
  destruct (fires_last base Hkeep 0 0 (r2 + 5 * resolution) l5)
    as (l6 & H6 & Hs6 & Hv6);
    [now rewrite Ht4|lia|lia|lia|].
  field_equations Hv6. rewrite Ht4 in Ht5. cbn in Ht5.
  exists l6. cbn [play occur]. rewrite H1, H2, H3, H4, H5, H6.
  split; [reflexivity|]. split; [exact Ht5|]. split; [exact Hc5|].
  rewrite Hcalls5, Hcalls4, Hcalls3, Hcalls2, Hcalls1, Hcalls, Hcalls0,
    Z.add_0_r, <- !app_assoc.
  reflexivity.
Qed.

(** ** The debouncer at concrete inputs *)




(** Two signals 50 ms apart, the start callback suspended for longer. *)
Lemma suspended_start_is_awaited_again_witness :
  exists l,
    play slow_base 1000
      [Starts 0; Starts 50; Resumes 60 (Ok tt); Resumes 70 (Ok tt);
       Fires 0 0; Fires 0 0] {| adapter := idle; suspended := 0 |} = Some l
    /\ timers (adapter l) = []
    /\ motion_counter (adapter l) = 0
    /\ host_calls (adapter l) =
         [] ++ [(0, trigger_motion_start); (50, trigger_motion_start);
                (70 + 5 * 1000, trigger_motion_stop)].
Proof.
  apply (suspended_start_is_awaited_again slow_base 1000 [] idle 0 50 60 70).
  - intros cb s; reflexivity.
  - reflexivity.
  - now repeat split.
  - cbn; lia.
  - lia.
  - lia.
  - lia.
  - lia.
Defined.
